(** * atlassian-quotes: billing documents to spreadsheets

    A shallow embedding of the extraction and rendering pipeline of
    [main.py] (library / CLI variant) and [app.py] (Streamlit variant),
    and the properties of it that the specification states.

    Conventions of the embedding.
    - A Python [str] is a [string]; each character stands for one code
      point below 256, and the character classes of Python ([isspace],
      [lower], decimal digits) are taken on that range.
    - A Python [float] is a binary64 [float] of the kernel; [int] is [Z].
    - A raised exception is a value [Raise e] of the type [result];
      [try]/[except] is a match on it.
    - A [dict] whose iteration order is observed ([product_groups],
      [grouped_data]) is an association list in insertion order with
      distinct keys; the worksheet, which is only read by cell name, is
      a [gmap]. *)

From Stdlib Require Import ZArith List Ascii String Bool Lia Floats.
From Stdlib Require Import DecimalString DecimalNat DecimalFacts Sorted.
From stdpp Require Import base option list strings gmap.

Local Open Scope string_scope.
Local Open Scope Z_scope.

(** ** Exceptions *)

Module Py.

Inductive exn : Type :=
  | ValueError
  | TypeError
  | AttributeError
  | IndexError
  | KeyError
  | OverflowError
  | UnicodeDecodeError
  | JSONDecodeError
  | PDFSyntaxError.

Inductive result (A : Type) : Type :=
  | Ok (a : A)
  | Raise (e : exn).

Arguments Ok {A} a.
Arguments Raise {A} e.

Definition bind {A B : Type} (m : result A) (k : A -> result B) : result B :=
  match m with
  | Ok a => k a
  | Raise e => Raise e
  end.

Definition is_ok {A : Type} (m : result A) : bool :=
  match m with Ok _ => true | Raise _ => false end.

(** [for x in xs: body] over a state [S], stopping at the first raise. *)
Fixpoint for_each {A S : Type} (body : A -> S -> result S) (xs : list A) (s : S)
  : result S :=
  match xs with
  | [] => Ok s
  | x :: xs' => bind (body x s) (for_each body xs')
  end.

End Py.

Export Py.

Notation "'let*' x := m 'in' k" := (Py.bind m (fun x => k))
  (at level 10, x name, m at level 100, k at level 200).

(** ** Strings *)

Module Str.

Definition code (c : ascii) : N := N_of_ascii c.

(** [str.isspace] on one character (also the class [\s] of [re]). *)
Definition is_space (c : ascii) : bool :=
  let n := code c in
  ((9 <=? n) && (n <=? 13) || (28 <=? n) && (n <=? 32)
   || (n =? 133) || (n =? 160))%N.

Definition is_digit (c : ascii) : bool :=
  let n := code c in ((48 <=? n) && (n <=? 57))%N.

Definition digit_val (c : ascii) : Z := Z.of_N (code c) - 48.

(** [str.lower] on one character. *)
Definition lower_char (c : ascii) : ascii :=
  let n := code c in
  if ((65 <=? n) && (n <=? 90)
      || (192 <=? n) && (n <=? 222) && negb (n =? 215))%N
  then ascii_of_N (n + 32) else c.

Fixpoint lower (s : string) : string :=
  match s with
  | EmptyString => EmptyString
  | String c s' => String (lower_char c) (lower s')
  end.

Fixpoint lstrip (s : string) : string :=
  match s with
  | EmptyString => EmptyString
  | String c s' => if is_space c then lstrip s' else s
  end.

Fixpoint rstrip (s : string) : string :=
  match s with
  | EmptyString => EmptyString
  | String c s' =>
      match rstrip s' with
      | EmptyString => if is_space c then EmptyString else String c EmptyString
      | r => String c r
      end
  end.

Definition strip (s : string) : string := rstrip (lstrip s).

(** [s.startswith(p)]. *)
Fixpoint startswith (p s : string) : bool :=
  match p, s with
  | EmptyString, _ => true
  | String a p', String b s' => Ascii.eqb a b && startswith p' s'
  | String _ _, EmptyString => false
  end.

(** [s.endswith(p)]. *)
Fixpoint endswith (p s : string) : bool :=
  String.eqb p s ||
  match s with
  | EmptyString => false
  | String _ s' => endswith p s'
  end.

(** [p in s] for strings. *)
Fixpoint contains (p s : string) : bool :=
  startswith p s ||
  match s with
  | EmptyString => false
  | String _ s' => contains p s'
  end.

(** [s[n:]]. *)
Fixpoint drop (n : nat) (s : string) : string :=
  match n, s with
  | O, _ => s
  | S n', String _ s' => drop n' s'
  | S _, EmptyString => EmptyString
  end.

(** [s.replace(c, '')] for a one-character [c]. *)
Fixpoint remove_char (c : ascii) (s : string) : string :=
  match s with
  | EmptyString => EmptyString
  | String a s' =>
      if Ascii.eqb a c then remove_char c s' else String a (remove_char c s')
  end.

(** [sep.join(parts)]. *)
Fixpoint join (sep : string) (parts : list string) : string :=
  match parts with
  | [] => EmptyString
  | [p] => p
  | p :: ps => p ++ sep ++ join sep ps
  end.

(** [str(n)] for a non-negative [int], as an f-string prints a row number. *)
Definition of_nat (n : nat) : string :=
  NilZero.string_of_uint (Nat.to_uint n).

(** A string is truthy when it is not empty. *)
Definition truthy (s : string) : bool :=
  match s with EmptyString => false | _ => true end.

Definition newline : ascii := ascii_of_N 10.

End Str.

(** ** Floats

    [float(x)] of Python: the nearest binary64 (ties to even), computed
    with the reference rounding [binary_normalize] on exact integers. *)

Module PyFloat.

(** The binary64 nearest to [m * 2^e]. *)
Definition of_scaled (m e : Z) : float :=
  SF2Prim (binary_normalize prec emax m e false).

(** [float(z)] for an [int]; an [int] beyond the range raises. *)
Definition of_int (z : Z) : result float :=
  let f := of_scaled z 0 in
  if is_infinity f then Raise OverflowError else Ok f.

(** The binary64 nearest to [m * 10^e10], [0 <= m]. For a negative
    exponent the quotient is taken with 64 bits to spare and a sticky
    last bit, which rounds as the exact quotient does. *)
Definition of_decimal (m e10 : Z) : float :=
  if m =? 0 then zero
  else if 0 <=? e10 then of_scaled (m * 10 ^ e10) 0
  else
    let q := 10 ^ (- e10) in
    let k := Z.max 0 (Z.log2 q - Z.log2 m + 64) in
    let n := (m * 2 ^ k) / q in
    let sticky := if (m * 2 ^ k) mod q =? 0 then 0 else 1 in
    of_scaled (2 * n + sticky) (- k - 1).

Definition signed (neg : bool) (f : float) : float :=
  if neg then (- f)%float else f.

(** Underscores of a numeric literal: allowed between two digits only;
    the literal without them, or [ValueError]. *)
Fixpoint strip_underscores (prev : option ascii) (s : string) : result string :=
  match s with
  | EmptyString =>
      if bool_decide (prev = Some "_"%char) then Raise ValueError else Ok EmptyString
  | String c s' =>
      if Ascii.eqb c "_" then
        match prev with
        | Some p =>
            if Str.is_digit p then strip_underscores (Some c) s'
            else Raise ValueError
        | None => Raise ValueError
        end
      else if bool_decide (prev = Some "_"%char) && negb (Str.is_digit c)
      then Raise ValueError
      else let* r := strip_underscores (Some c) s' in Ok (String c r)
  end.

(** An optional sign: whether it is a minus, and the rest. *)
Definition take_sign (s : string) : bool * string :=
  match s with
  | String "-" s' => (true, s')
  | String "+" s' => (false, s')
  | _ => (false, s)
  end.

(** The longest run of decimal digits at the head of [s]: its value on
    top of [acc], how many digits it has, and the rest. *)
Fixpoint take_digits (acc : Z) (n : nat) (s : string) : Z * nat * string :=
  match s with
  | String c s' =>
      if Str.is_digit c
      then take_digits (10 * acc + Str.digit_val c) (S n) s'
      else (acc, n, s)
  | EmptyString => (acc, n, s)
  end.

(** A decimal literal [digits [. digits] [(e|E) [sign] digits]] with at
    least one mantissa digit, read to the end of the text. *)
Definition parse_decimal (s : string) : result float :=
  let '(i, ni, r1) := take_digits 0 0 s in
  let '(m, nf, r2) :=
    match r1 with
    | String "." r => take_digits i 0 r
    | _ => (i, 0%nat, r1)
    end in
  if (ni + nf =? 0)%nat then Raise ValueError
  else
    match r2 with
    | EmptyString => Ok (of_decimal m (- Z.of_nat nf))
    | String c r3 =>
        if Ascii.eqb c "e" || Ascii.eqb c "E" then
          let '(eneg, r4) := take_sign r3 in
          let '(ev, ne, r5) := take_digits 0 0 r4 in
          if (ne =? 0)%nat || Str.truthy r5 then Raise ValueError
          else Ok (of_decimal m ((if eneg then - ev else ev) - Z.of_nat nf))
        else Raise ValueError
    end.

(** [float(s)] for a [str]. *)
Definition of_str (s : string) : result float :=
  let* t := strip_underscores None (Str.strip s) in
  let '(neg, r) := take_sign t in
  let l := Str.lower r in
  if String.eqb l "inf" || String.eqb l "infinity" then Ok (signed neg infinity)
  else if String.eqb l "nan" then Ok nan
  else let* v := parse_decimal r in Ok (signed neg v).

(** [x != 0] and [x == 0] on floats. *)
Definition nonzero (f : float) : bool := negb (PrimFloat.eqb f zero).

End PyFloat.

(** ** Amount parser ([parse_amount], the same text in both files) *)

Inductive usd_state : Type :=
  | Scan                (* looking for the next match *)
  | InMatch (k : nat)   (* [k] more characters of a matched [USD] to drop *)
  | Spaces.             (* dropping the [\s*] after a matched [USD] *)

(** [re.sub(r'USD\s*', '', s, flags=re.IGNORECASE)]: left to right, every
    [USD] in any letter case goes, with the whitespace that follows it. *)
Fixpoint sub_usd (st : usd_state) (s : string) : string :=
  match s with
  | EmptyString => EmptyString
  | String c s' =>
      match st with
      | InMatch (S (S k)) => sub_usd (InMatch (S k)) s'
      | InMatch _ => sub_usd Spaces s'
      | _ =>
          if (match st with Spaces => Str.is_space c | _ => false end)
          then sub_usd Spaces s'
          else if Str.startswith "usd" (Str.lower s)
          then sub_usd (InMatch 2) s'
          else String c (sub_usd Scan s')
      end
  end.

(** The text handed to [float] by [parse_amount], and whether a leading
    minus sign was taken off it. *)
Definition clean_amount (amount_str : string) : bool * string :=
  let cleaned := sub_usd Scan amount_str in
  let cleaned := Str.strip (Str.remove_char "," cleaned) in
  let is_negative := Str.startswith "-" cleaned in
  (is_negative, if is_negative then Str.drop 1 cleaned else cleaned).

Definition parse_amount (amount_str : string) : result float :=
  if negb (Str.truthy amount_str) || String.eqb amount_str "" then Ok zero
  else
    let '(is_negative, cleaned) := clean_amount amount_str in
    match PyFloat.of_str cleaned with
    | Ok value => Ok (if is_negative then (- value)%float else value)
    | Raise ValueError => Ok zero
    | Raise e => Raise e
    end.

(** ** Product text formatter ([format_product_text], both files) *)

(** [re.sub(r'(label)', r'\n\1', s)] for a literal, non-empty [label]:
    matches are found left to right and do not overlap; [skip] counts the
    characters of the current match still to be copied. *)
Fixpoint sub_label (label : string) (skip : nat) (s : string) : string :=
  match s with
  | EmptyString => EmptyString
  | String c s' =>
      match skip with
      | S k => String c (sub_label label k s')
      | O =>
          if Str.startswith label s
          then String Str.newline
                 (String c (sub_label label (String.length label - 1) s'))
          else String c (sub_label label 0 s')
      end
  end.

Definition entitlement_label : string := "Entitlement Number:".
Definition billing_label : string := "Billing period:".

Definition format_product_text (product_text : string) : string :=
  if negb (Str.truthy product_text) then product_text
  else
    let formatted_text := sub_label entitlement_label 0 product_text in
    let formatted_text := sub_label billing_label 0 formatted_text in
    formatted_text.

(** ** Line items and the grouper ([group_by_sno], both files) *)

Record item : Type := Item {
  sno : string;
  product : string;
  amount_excl_tax : float;
  discount : string
}.

(** A [dict] with [str] keys, in insertion order. *)
Module Dict.

Definition t (V : Type) : Type := list (string * V).

Fixpoint get {V : Type} (k : string) (d : t V) : option V :=
  match d with
  | [] => None
  | (k', v) :: d' => if String.eqb k k' then Some v else get k d'
  end.

Definition mem {V : Type} (k : string) (d : t V) : bool :=
  match get k d with Some _ => true | None => false end.

(** [d[k] = v]: in place for a key that is there, at the end for a new one. *)
Fixpoint set {V : Type} (k : string) (v : V) (d : t V) : t V :=
  match d with
  | [] => [(k, v)]
  | (k', v') :: d' =>
      if String.eqb k k' then (k, v) :: d' else (k', v') :: set k v d'
  end.

Definition keys {V : Type} (d : t V) : list string := map fst d.

End Dict.

(** One turn of the loop of [group_by_sno]: [current_sno] is [None]
    before the first item; an empty [item.sno] takes the current one when
    that one is truthy, any other [item.sno] becomes the current one. *)
Definition group_step (st : Dict.t (list item) * option string) (it : item)
  : Dict.t (list item) * option string :=
  let '(grouped, current_sno) := st in
  let '(k, current_sno) :=
    match current_sno with
    | Some cur =>
        if negb (Str.truthy (sno it)) && Str.truthy cur
        then (cur, current_sno)
        else (sno it, Some (sno it))
    | None => (sno it, Some (sno it))
    end in
  let grouped := if Dict.mem k grouped then grouped else Dict.set k [] grouped in
  let grouped :=
    match Dict.get k grouped with
    | Some l => Dict.set k (l ++ [it])%list grouped
    | None => grouped
    end in
  (grouped, current_sno).

Definition group_by_sno (table_data : list item) : Dict.t (list item) :=
  fst (fold_left group_step table_data ([], None)).

(** ** Row order of the renderer *)

(** [str.isdigit] on one character: the decimal digits and the
    superscripts two, three and one. *)
Definition isdigit_char (c : ascii) : bool :=
  let n := Str.code c in
  (Str.is_digit c || (n =? 178) || (n =? 179) || (n =? 185))%N.

Fixpoint all_chars (p : ascii -> bool) (s : string) : bool :=
  match s with
  | EmptyString => true
  | String c s' => p c && all_chars p s'
  end.

(** [x.isdigit()]. *)
Definition isdigit (x : string) : bool := Str.truthy x && all_chars isdigit_char x.

(** [int(x)] for a text that passed [isdigit]: the superscripts are no
    decimal digits and make [int] raise. *)
Definition int_of_digits (x : string) : result Z :=
  if all_chars Str.is_digit x
  then Ok (fold_left (fun acc c => 10 * acc + Str.digit_val c)
             (list_ascii_of_string x) 0)
  else Raise ValueError.

(** [lambda x: int(x) if x.isdigit() else 999]. *)
Definition sort_key (x : string) : result Z :=
  if isdigit x then int_of_digits x else Ok 999.

(** [sorted] is stable: an element goes before the first one whose key is
    not smaller than its own. *)
Fixpoint insert_by_key (x : Z * string) (l : list (Z * string))
  : list (Z * string) :=
  match l with
  | [] => [x]
  | y :: l' => if fst x <=? fst y then x :: l else y :: insert_by_key x l'
  end.

Definition sort_by_key (l : list (Z * string)) : list (Z * string) :=
  fold_right insert_by_key [] l.

Fixpoint with_keys (xs : list string) : result (list (Z * string)) :=
  match xs with
  | [] => Ok []
  | x :: xs' =>
      let* k := sort_key x in
      let* r := with_keys xs' in
      Ok ((k, x) :: r)
  end.

(** [sorted(keys, key=lambda x: int(x) if x.isdigit() else 999)]. *)
Definition sorted_keys (keys : list string) : result (list string) :=
  let* kx := with_keys keys in Ok (map snd (sort_by_key kx)).

(** ** Spreadsheet renderer ([create_excel_output], [create_excel_content])

    The worksheet is the map from cell names to the values written; the
    fonts, alignments, number formats, column widths and row heights the
    code also sets do not change a value and are not part of this map. *)

Inductive cell_value : Type :=
  | VStr (s : string)
  | VFloat (f : float)
  | VInt (z : Z).

Record sheet : Type := Sheet {
  cells : gmap string cell_value;
  current_row : nat;
  formula_rows : list nat
}.

(** [f'{col}{row}']. *)
Definition cell_name (col : string) (row : nat) : string :=
  col ++ Str.of_nat row.

Definition write (name : string) (v : cell_value) (ws : gmap string cell_value)
  : gmap string cell_value := <[name := v]> ws.

(** The total formula of a group of [n] items whose head is on row [r]. *)
Definition group_formula (r n : nat) : string :=
  let group_start_row := r in
  let group_end_row := (r + n - 1)%nat in
  if (n =? 1)%nat then "=D" ++ Str.of_nat r
  else "=SUM(D" ++ Str.of_nat group_start_row ++ ":D"
         ++ Str.of_nat group_end_row ++ ")".

(** [for item in items[1:]]: one amount per row, below the head row. *)
Definition write_sub_item (st : gmap string cell_value * nat) (it : item)
  : gmap string cell_value * nat :=
  let '(ws, row) := st in
  (write (cell_name "D" row) (VFloat (amount_excl_tax it)) ws, S row).

(** The body of the loop over the sorted keys, for the group of [k]. *)
Definition render_group (k : string) (items : list item) (st : sheet) : sheet :=
  match items with
  | [] => st
  | first_item :: rest =>
      let r := current_row st in
      let ws := cells st in
      let ws := write (cell_name "A" r) (VStr k) ws in
      let ws := write (cell_name "B" r) (VStr (discount first_item)) ws in
      let ws := write (cell_name "C" r)
                  (VStr (format_product_text (product first_item))) ws in
      let ws := write (cell_name "D" r) (VFloat (amount_excl_tax first_item)) ws in
      let ws := write (cell_name "E" r)
                  (VStr (group_formula r (length items))) ws in
      let '(ws, row) := fold_left write_sub_item rest (ws, S r) in
      Sheet ws row (formula_rows st ++ [r])%list
  end.

Definition header_cells : gmap string cell_value :=
  write "E1" (VStr "Total")
    (write "D1" (VStr "Amount excl. tax")
       (write "C1" (VStr "Product")
          (write "B1" (VStr "Discount?")
             (write "A1" (VStr "S.no") ∅)))).

(** The value of the grand total cell. *)
Definition grand_total (rows : list nat) : cell_value :=
  match rows with
  | [] => VInt 0
  | _ =>
      let formula_cells := map (fun row => "E" ++ Str.of_nat row) rows in
      VStr ("=SUM(" ++ Str.join "," formula_cells ++ ")")
  end.

(** The groups in the order the renderer visits them. *)
Definition ordered_groups (grouped_data : Dict.t (list item))
  : result (list (string * list item)) :=
  let* ks := sorted_keys (Dict.keys grouped_data) in
  Ok (map (fun k => (k, default [] (Dict.get k grouped_data))) ks).

Definition render_groups (gs : list (string * list item)) (st : sheet) : sheet :=
  fold_left (fun st g => render_group (fst g) (snd g) st) gs st.

Definition finish (st : sheet) : gmap string cell_value :=
  let ws := write (cell_name "D" (current_row st)) (VStr "TOTAL") (cells st) in
  write (cell_name "E" (current_row st)) (grand_total (formula_rows st)) ws.

Definition create_excel_content (grouped_data : Dict.t (list item))
  : result (gmap string cell_value) :=
  let* gs := ordered_groups grouped_data in
  Ok (finish (render_groups gs (Sheet header_cells 2 []))).

(** ** PDF extractor ([extract_tables_from_pdf], [..._content])

    A table of [pdfplumber] is a list of rows of cells, a cell a text or
    [None]. *)

Definition cell : Type := option string.

(** [str(cell).strip() if cell else '']. *)
Definition cell_text (c : cell) : string :=
  match c with
  | Some s => if Str.truthy s then Str.strip s else ""
  | None => ""
  end.

Definition cell_truthy (c : cell) : bool :=
  match c with Some s => Str.truthy s | None => false end.

(** [row[i]]. *)
Definition row_get (row : list cell) (i : nat) : result cell :=
  match row !! i with
  | Some c => Ok c
  | None => Raise IndexError
  end.

Record columns : Type := Columns {
  sno_idx : option nat;
  product_idx : option nat;
  amount_excl_tax_idx : option nat;
  discount_idx : option nat
}.

(** One turn of [for i, header in enumerate(headers)]. *)
Definition resolve_step (cols : columns) (ih : nat * string) : columns :=
  let '(i, header) := ih in
  let header_lower := Str.lower header in
  if Str.contains "s.no" header_lower || Str.contains "sno" header_lower
  then Columns (Some i) (product_idx cols) (amount_excl_tax_idx cols) (discount_idx cols)
  else if Str.contains "product" header_lower
  then Columns (sno_idx cols) (Some i) (amount_excl_tax_idx cols) (discount_idx cols)
  else if Str.contains "amount" header_lower && Str.contains "excl" header_lower
  then Columns (sno_idx cols) (product_idx cols) (Some i) (discount_idx cols)
  else if Str.contains "discount" header_lower
  then Columns (sno_idx cols) (product_idx cols) (amount_excl_tax_idx cols) (Some i)
  else cols.

Fixpoint enumerate {A : Type} (i : nat) (l : list A) : list (nat * A) :=
  match l with
  | [] => []
  | x :: l' => (i, x) :: enumerate (S i) l'
  end.

Definition resolve_columns (header_row : list cell) : columns :=
  let headers := map cell_text header_row in
  fold_left resolve_step (enumerate 0 headers) (Columns None None None None).

(** The body of [for row in table[1:]] once the three essential columns
    are resolved: the row is skipped, or it adds an item, or an index is
    out of range. *)
Definition process_row (si pi ai : nat) (di : option nat)
    (table_data : list item) (row : list cell) : result (list item) :=
  if (length row <=? Nat.max (Nat.max si pi) ai)%nat then Ok table_data
  else
    let* c_sno := row_get row si in
    let sno := cell_text c_sno in
    let* c_product := row_get row pi in
    let product := cell_text c_product in
    let* c_amount := row_get row ai in
    let amount_str := cell_text c_amount in
    let* discount_str :=
      match di with
      | Some d => let* c := row_get row d in Ok (cell_text c)
      | None => Ok ""
      end in
    if negb (Str.truthy sno) && negb (Str.truthy product)
       && negb (Str.truthy amount_str)
    then Ok table_data
    else
      let* amount := parse_amount amount_str in
      let has_discount :=
        if Str.truthy discount_str && negb (String.eqb discount_str "")
           && negb (String.eqb discount_str "0")
        then "Y" else "N" in
      Ok (table_data ++ [Item sno product amount has_discount])%list.

(** The items of one table; no items when the table is skipped. *)
Definition extract_table (table : list (list cell)) : result (list item) :=
  match table with
  | header_row :: ((_ :: _) as data_rows) =>
      let cols := resolve_columns header_row in
      match sno_idx cols, product_idx cols, amount_excl_tax_idx cols with
      | Some si, Some pi, Some ai =>
          Py.for_each (fun row td => process_row si pi ai (discount_idx cols) td row)
            data_rows []
      | _, _, _ => Ok []
      end
  | _ => Ok []
  end.

(** The loops over the pages and their tables: a table with items is
    appended to [all_tables]. *)
Definition extract_tables (pages : list (list (list (list cell))))
  : result (list (list item)) :=
  Py.for_each
    (fun table all_tables =>
       let* table_data := extract_table table in
       Ok (match table_data with
           | [] => all_tables
           | _ => (all_tables ++ [table_data])%list
           end))
    (concat pages) [].

(** ** JSON values, as [json.loads] builds them *)

Inductive json : Type :=
  | JNone
  | JBool (b : bool)
  | JInt (z : Z)
  | JFloat (f : float)
  | JStr (s : string)
  | JList (l : list json)
  | JDict (d : list (string * json)).

Module Json.

(** Truth value of an object. *)
Definition truthy (x : json) : bool :=
  match x with
  | JNone => false
  | JBool b => b
  | JInt z => negb (z =? 0)
  | JFloat f => PyFloat.nonzero f
  | JStr s => Str.truthy s
  | JList l => match l with [] => false | _ => true end
  | JDict d => match d with [] => false | _ => true end
  end.

Definition is_str (k : string) (x : json) : bool :=
  match x with JStr s => String.eqb s k | _ => false end.

(** [k in x] for a text [k]. *)
Definition contains (k : string) (x : json) : result bool :=
  match x with
  | JDict d => Ok (Dict.mem k d)
  | JList l => Ok (existsb (is_str k) l)
  | JStr s => Ok (Str.contains k s)
  | _ => Raise TypeError
  end.

(** [x[k]] for a text [k]. *)
Definition getitem (k : string) (x : json) : result json :=
  match x with
  | JDict d => match Dict.get k d with Some v => Ok v | None => Raise KeyError end
  | _ => Raise TypeError
  end.

(** [x.get(k, default)]. *)
Definition get (k : string) (default : json) (x : json) : result json :=
  match x with
  | JDict d => Ok (match Dict.get k d with Some v => v | None => default end)
  | _ => Raise AttributeError
  end.

(** The elements [for e in x] visits. *)
Definition iter (x : json) : result (list json) :=
  match x with
  | JList l => Ok l
  | JDict d => Ok (map (fun kv => JStr (fst kv)) d)
  | JStr s => Ok (map (fun c => JStr (String c EmptyString)) (list_ascii_of_string s))
  | _ => Raise TypeError
  end.

(** [x != 0]. *)
Definition ne_zero (x : json) : bool :=
  match x with
  | JBool b => b
  | JInt z => negb (z =? 0)
  | JFloat f => PyFloat.nonzero f
  | _ => true
  end.

(** [x > 0]. *)
Definition gt_zero (x : json) : result bool :=
  match x with
  | JBool b => Ok b
  | JInt z => Ok (0 <? z)
  | JFloat f => Ok (PrimFloat.ltb zero f)
  | _ => Raise TypeError
  end.

(** [x / 100.0]. *)
Definition div100 (x : json) : result float :=
  match x with
  | JBool b => Ok ((if b then one else zero) / 100)%float
  | JInt z => let* f := PyFloat.of_int z in Ok (f / 100)%float
  | JFloat f => Ok (f / 100)%float
  | _ => Raise TypeError
  end.

Definition is_dict (x : json) : bool :=
  match x with JDict _ => true | _ => false end.

End Json.

(** ** Parts shared by the two JSON extractors *)

(** Whether [s] is [\s*\([^)]*\)\s*]: a parenthesized clause without a
    closing parenthesis inside, between optional whitespace. *)
Fixpoint clause_body (s : string) : bool :=
  match s with
  | EmptyString => false
  | String c s' =>
      if Ascii.eqb c ")" then negb (Str.truthy (Str.lstrip s')) else clause_body s'
  end.

Definition is_trailing_clause (s : string) : bool :=
  match Str.lstrip s with
  | String "(" s' => clause_body s'
  | _ => false
  end.

(** [re.sub(r'\s*\([^)]*\)\s*$', '', s)]: the text is cut at the first
    position from which the rest is such a clause. *)
Fixpoint cut_trailing_clause (s : string) : string :=
  match s with
  | EmptyString => EmptyString
  | String c s' =>
      if is_trailing_clause s then EmptyString else String c (cut_trailing_clause s')
  end.

(** [re.sub(...).strip()], then the description itself when nothing is
    left; [re.sub] wants a [str]. The description comes back as text. *)
Definition base_product_of (description : json) : result (string * string) :=
  match description with
  | JStr d =>
      let base_product := Str.strip (cut_trailing_clause d) in
      Ok (d, if negb (Str.truthy base_product) then d else base_product)
  | _ => Raise TypeError
  end.

(** The test of [for margin in margins] on one margin. *)
Definition margin_shows_discount (margin : json) : result bool :=
  let* percent := Json.get "percent" (JInt 0) margin in
  let* positive := Json.gt_zero percent in
  if positive then Ok true
  else
    let* amount := Json.get "amount" (JInt 0) margin in
    Ok (Json.ne_zero amount).

(** The loop over the margins, left at the first margin that shows a
    discount. *)
Fixpoint any_margin (margins : list json) : result bool :=
  match margins with
  | [] => Ok false
  | margin :: rest =>
      let* shows := margin_shows_discount margin in
      if shows then Ok true else any_margin rest
  end.

Definition has_discount_of (margins : json) : result string :=
  let* ms := Json.iter margins in
  let* found := any_margin ms in
  Ok (if found then "Y" else "N").

(** The value of [product_groups] under one key. *)
Record product_group : Type := ProductGroup {
  pg_product : string;
  pg_amounts : list float;
  pg_discount : string
}.

(** The group of [base_product], made with the first description when the
    key is new. *)
Definition ensure_group (base_product description has_discount : string)
    (product_groups : Dict.t product_group) : Dict.t product_group :=
  if Dict.mem base_product product_groups then product_groups
  else Dict.set base_product (ProductGroup description [] has_discount) product_groups.

Definition update_group (base_product : string)
    (f : product_group -> product_group)
    (product_groups : Dict.t product_group) : Dict.t product_group :=
  match Dict.get base_product product_groups with
  | Some g => Dict.set base_product (f g) product_groups
  | None => product_groups
  end.

Definition append_amount (amount : float) (g : product_group) : product_group :=
  ProductGroup (pg_product g) (pg_amounts g ++ [amount])%list (pg_discount g).

Definition mark_discount (has_discount : string) (g : product_group)
  : product_group :=
  if String.eqb has_discount "Y"
  then ProductGroup (pg_product g) (pg_amounts g) "Y"
  else g.

(** The rows of one product group, numbered [i]. *)
Definition group_items (i : nat) (g : product_group) : list item :=
  let first_amount := match pg_amounts g with a :: _ => a | [] => zero end in
  Item (Str.of_nat i) (pg_product g) first_amount (pg_discount g)
  :: map (fun amount => Item "" "" amount "N") (tail (pg_amounts g)).

(** [for i, (base_product, group_data) in enumerate(product_groups.items(), 1)]. *)
Definition to_table_data (product_groups : Dict.t product_group) : list item :=
  concat (map (fun ig => group_items (fst ig) (snd (snd ig)))
            (enumerate 1 product_groups)).

(** ** The Streamlit variant ([app.py]) *)

Module App.

Definition possible_paths : list (list string) :=
  [ ["upcomingBills"; "lines"];
    ["lines"];
    ["QuoteDetails"; "upcomingBills"; "lines"];
    ["quote"; "upcomingBills"; "lines"];
    ["data"; "upcomingBills"; "lines"] ].

(** [for key in path: ... else: ...]: the value at the end of the path,
    or nothing when the loop was left by [break]. *)
Fixpoint traverse (path : list string) (current_data : json) : option json :=
  match path with
  | [] => Some current_data
  | key :: rest =>
      match current_data with
      | JDict d =>
          match Dict.get key d with
          | Some v => traverse rest v
          | None => None
          end
      | _ => None
      end
  end.

(** [for path in possible_paths]: the first path that ends on a list that
    is not empty gives [lines]; [lines] stays [[]] otherwise. *)
Fixpoint find_lines (paths : list (list string)) (data : json) : list json :=
  match paths with
  | [] => []
  | path :: rest =>
      match traverse path data with
      | Some (JList (l :: ls)) => l :: ls
      | _ => find_lines rest data
      end
  end.

(** The look at the structure when no lines were found; it shows
    messages only, but [in] raises on a value that is no container. *)
Definition inspect_value (value : json) : result unit :=
  match value with
  | JDict d =>
      if Dict.mem "upcomingBills" d then
        let* bills := Json.getitem "upcomingBills" value in
        let* _ := Json.contains "lines" bills in
        Ok tt
      else Ok tt
  | _ => Ok tt
  end.

Definition inspect_structure (data : json) : result unit :=
  match data with
  | JDict d => Py.for_each (fun kv _ => inspect_value (snd kv)) d tt
  | _ => Ok tt
  end.

(** [total / 100.0 if total != 0 else (subTotal / 100.0 if subTotal != 0 else 0.0)]. *)
Definition amount_of (total subTotal : json) : result float :=
  if Json.ne_zero total then Json.div100 total
  else if Json.ne_zero subTotal then Json.div100 subTotal
  else Ok zero.

(** The body of [for line in lines]. *)
Definition process_line (line : json) (product_groups : Dict.t product_group)
  : result (Dict.t product_group) :=
  let* description := Json.get "description" (JStr "") line in
  let* total := Json.get "total" (JInt 0) line in
  let* subTotal := Json.get "subTotal" (JInt 0) line in
  let* margins := Json.get "margins" (JList []) line in
  let* amount := amount_of total subTotal in
  let* skip :=
    if PrimFloat.eqb amount zero then
      let* is_credit_line := Json.get "isCreditLine" (JBool false) line in
      Ok (negb (Json.truthy is_credit_line))
    else Ok false in
  if skip then Ok product_groups
  else
    let* db := base_product_of description in
    let '(description, base_product) := db in
    let* has_discount := has_discount_of margins in
    let product_groups := ensure_group base_product description has_discount product_groups in
    let product_groups := update_group base_product (append_amount amount) product_groups in
    let product_groups := update_group base_product (mark_discount has_discount) product_groups in
    Ok product_groups.

(** [extract_from_json_content] after [json.loads]. *)
Definition extract_from_data (data : json) : result (list item) :=
  match find_lines possible_paths data with
  | [] => let* _ := inspect_structure data in Ok []
  | lines =>
      let* product_groups := Py.for_each process_line lines [] in
      match product_groups with
      | [] => Ok []
      | _ => Ok (to_table_data product_groups)
      end
  end.

Section Env.

(** What the libraries do: [Path(name).suffix], [bytes.decode('utf-8')],
    [json.loads], the tables [pdfplumber] finds page by page, and the
    text [str(e)] of an exception. *)
Variable path_suffix : string -> string.
Variable decode_utf8 : string -> result string.
Variable json_loads : string -> result json.
Variable pdf_tables : string -> result (list (list (list (list cell)))).
Variable str_exn : exn -> string.

Definition detect_input_type_from_content (content filename : string) : string :=
  let file_extension := Str.lower (path_suffix filename) in
  if String.eqb file_extension ".pdf" then "pdf"
  else if String.eqb file_extension ".json" then "json"
  else
    match decode_utf8 content with
    | Ok text =>
        let text_content := Str.strip text in
        if Str.startswith "{" text_content || Str.startswith "[" text_content
        then "json" else "pdf"
    | Raise _ => "pdf"
    end.

Definition extract_from_json_content (json_content : string) : result (list item) :=
  match json_loads json_content with
  | Ok data => extract_from_data data
  | Raise JSONDecodeError => Ok []
  | Raise e => Raise e
  end.

(** The whole body is under [try: ... except Exception: return []]. *)
Definition extract_tables_from_pdf_content (pdf_content : string)
  : list (list item) :=
  match (let* pages := pdf_tables pdf_content in extract_tables pages) with
  | Ok all_tables => all_tables
  | Raise _ => []
  end.

(** The workbook, the status and the message. *)
Definition outcome : Type := option (gmap string cell_value) * string * string.

Definition success_message (items groups : nat) : string :=
  "Successfully processed " ++ Str.of_nat items ++ " items into "
    ++ Str.of_nat groups ++ " groups".

(** The body of the [try] of [process_single_file]. *)
Definition process_body (file_content filename : string) : result outcome :=
  let input_type := detect_input_type_from_content file_content filename in
  let* data :=
    if String.eqb input_type "json" then
      let* json_content := decode_utf8 file_content in
      let* table_data := extract_from_json_content json_content in
      match table_data with
      | [] => Ok (inl (None, "error", "No data extracted from JSON"))
      | _ => Ok (inr table_data)
      end
    else
      match extract_tables_from_pdf_content file_content with
      | [] => Ok (inl (None, "error", "No tables found in PDF"))
      | all_tables => Ok (inr (concat all_tables))
      end in
  match data with
  | inl early => Ok early
  | inr combined_data =>
      let grouped_data := group_by_sno combined_data in
      let* excel_content := create_excel_content grouped_data in
      Ok (Some excel_content, "success",
          success_message (length combined_data) (length grouped_data))
  end.

Definition process_single_file (file_content filename : string) : result outcome :=
  match process_body file_content filename with
  | Ok r => Ok r
  | Raise e => Ok (None, "error", "Error processing file: " ++ str_exn e)
  end.

(** The loop of [main] over the uploaded files (name and content). *)
Definition process_files (uploaded_files : list (string * string))
  : result (list (string * outcome)) :=
  Py.for_each
    (fun f processed_files =>
       let* r := process_single_file (snd f) (fst f) in
       Ok (processed_files ++ [(fst f, r)])%list)
    uploaded_files [].

End Env.

End App.

(** ** The library / CLI variant ([main.py]) *)

Module Main.

(** The choice of [lines]: [upcomingBills.lines] when both keys are
    there, else [lines] when that key is there, else [[]]. *)
Definition find_lines (data : json) : result json :=
  let* has_bills := Json.contains "upcomingBills" data in
  let* nested :=
    if has_bills then
      let* bills := Json.getitem "upcomingBills" data in
      Json.contains "lines" bills
    else Ok false in
  if nested then
    let* bills := Json.getitem "upcomingBills" data in
    Json.getitem "lines" bills
  else
    let* flat := Json.contains "lines" data in
    if flat then Json.getitem "lines" data else Ok (JList []).

(** [total / 100.0 if total != 0 else 0.0]. *)
Definition amount_of (total : json) : result float :=
  if Json.ne_zero total then Json.div100 total else Ok zero.

(** The body of [for line in lines]. *)
Definition process_line (line : json) (product_groups : Dict.t product_group)
  : result (Dict.t product_group) :=
  let* description := Json.get "description" (JStr "") line in
  let* total := Json.get "total" (JInt 0) line in
  let* margins := Json.get "margins" (JList []) line in
  let* amount := amount_of total in
  let* db := base_product_of description in
  let '(description, base_product) := db in
  let* has_discount := has_discount_of margins in
  let product_groups := ensure_group base_product description has_discount product_groups in
  let no_amounts :=
    match Dict.get base_product product_groups with
    | Some g => (length (pg_amounts g) =? 0)%nat
    | None => true
    end in
  let product_groups :=
    if PyFloat.nonzero amount || no_amounts
    then update_group base_product (append_amount amount) product_groups
    else product_groups in
  let product_groups := update_group base_product (mark_discount has_discount) product_groups in
  Ok product_groups.

(** [extract_from_json] after [json.load]. *)
Definition extract_from_data (data : json) : result (list item) :=
  let* lines := find_lines data in
  if negb (Json.truthy lines) then Ok []
  else
    let* ls := Json.iter lines in
    let* product_groups := Py.for_each process_line ls [] in
    Ok (to_table_data product_groups).

Section Env.

(** What the libraries and the file system do: [Path(name).suffix], the
    text of a file, [json.load] of a file, and the tables [pdfplumber]
    finds in a file. *)
Variable path_suffix : string -> string.
Variable read_text : string -> result string.
Variable json_load : string -> result json.
Variable pdf_tables : string -> result (list (list (list (list cell)))).

Definition detect_input_type (file_path : string) : string :=
  let file_extension := Str.lower (path_suffix file_path) in
  if String.eqb file_extension ".pdf" then "pdf"
  else if String.eqb file_extension ".json" then "json"
  else
    match read_text file_path with
    | Ok text =>
        let content := Str.strip text in
        if Str.startswith "{" content || Str.startswith "[" content
        then "json" else "pdf"
    | Raise _ => "pdf"
    end.

Definition extract_from_json (json_path : string) : result (list item) :=
  let* data := json_load json_path in
  extract_from_data data.

Definition extract_tables_from_pdf (pdf_path : string) : result (list (list item)) :=
  let* pages := pdf_tables pdf_path in
  extract_tables pages.

(** The workbook saved, or nothing when the function returns early. *)
Definition process_document_to_excel (input_path : string)
  : result (option (gmap string cell_value)) :=
  let input_type := detect_input_type input_path in
  let* data :=
    if String.eqb input_type "json" then
      let* table_data := extract_from_json input_path in
      match table_data with
      | [] => Ok None
      | _ => Ok (Some table_data)
      end
    else
      let* all_tables := extract_tables_from_pdf input_path in
      match all_tables with
      | [] => Ok None
      | _ => Ok (Some (concat all_tables))
      end in
  match data with
  | None => Ok None
  | Some combined_data =>
      let grouped_data := group_by_sno combined_data in
      let* wb := create_excel_content grouped_data in
      Ok (Some wb)
  end.

Definition process_pdf_to_excel (pdf_path : string)
  : result (option (gmap string cell_value)) :=
  process_document_to_excel pdf_path.

(** The batch entry point: the files of [quotes] whose name ends in
    [.pdf], one after the other; what each one saved. *)
Definition process_all (listing : list string)
  : result (list (option (gmap string cell_value))) :=
  let pdf_files := filter (fun f => Str.endswith ".pdf" (Str.lower f) = true) listing in
  Py.for_each
    (fun pdf_file saved =>
       let* r := process_pdf_to_excel ("quotes/" ++ pdf_file) in
       Ok (saved ++ [r])%list)
    pdf_files [].

End Env.

End Main.

(** ** What the specification says, in its own words

    The definitions of this section follow the specification, not the
    code; the theorems below compare them with the code. *)

Module Spec.

(** A line break immediately before each occurrence of [label]. *)
Fixpoint breaks_before (label s : string) : string :=
  match s with
  | EmptyString => EmptyString
  | String c s' =>
      if Str.startswith label s
      then String Str.newline (String c (breaks_before label s'))
      else String c (breaks_before label s')
  end.

(** Whether one of the two labels occurs at the head of [s]. *)
Definition label_here (s : string) : bool :=
  Str.startswith entitlement_label s || Str.startswith billing_label s.

(** A line break immediately before each occurrence of either label. *)
Fixpoint insert_breaks (s : string) : string :=
  match s with
  | EmptyString => EmptyString
  | String c s' =>
      if label_here s
      then String Str.newline (String c (insert_breaks s'))
      else String c (insert_breaks s')
  end.

(** How many occurrences of the labels [s] has. *)
Fixpoint occurrences (s : string) : nat :=
  match s with
  | EmptyString => O
  | String _ s' => ((if label_here s then 1 else 0) + occurrences s')%nat
  end.

(** The grouper: the key an item goes under is its own sequence number
    when that is not empty, else the most recent non-empty one, else the
    empty text; [members current k items] are the items that go under
    [k], in the order of the input, [current] being the most recent
    non-empty sequence number before them. *)
Definition effective_key (current : string) (it : item) : string :=
  if Str.truthy (sno it) then sno it else current.

Fixpoint members (current k : string) (items : list item) : list item :=
  match items with
  | [] => []
  | it :: rest =>
      let key := effective_key current it in
      if String.eqb key k then it :: members key k rest
      else members key k rest
  end.



(** The JSON extractor: a path hits when its full traversal ends on a
    list that is not empty. *)
Definition hit (path : list string) (data : json) : Prop :=
  exists l ls, App.traverse path data = Some (JList (l :: ls)).

(** The percent and the amount of a margin, 0 when left out. *)
Definition margin_percent (margin : json) : json :=
  match margin with
  | JDict d => default (JInt 0) (Dict.get "percent" d)
  | _ => JInt 0
  end.

Definition margin_amount (margin : json) : json :=
  match margin with
  | JDict d => default (JInt 0) (Dict.get "amount" d)
  | _ => JInt 0
  end.

(** A margin entry the loop can test: an object whose percent is a
    number (or a truth value, which Python counts as one). *)
Definition margin_ok (margin : json) : bool :=
  Json.is_dict margin && Py.is_ok (Json.gt_zero (margin_percent margin)).

(** A margin with a percent above 0 or an amount other than 0. *)
Definition positive_margin (margin : json) : bool :=
  match Json.gt_zero (margin_percent margin) with
  | Ok true => true
  | _ => Json.ne_zero (margin_amount margin)
  end.

(** A margin with a percent or an amount other than 0. *)
Definition nonzero_margin (margin : json) : bool :=
  Json.ne_zero (margin_percent margin) || Json.ne_zero (margin_amount margin).

End Spec.

(** ** The loop bodies of the JSON extractors, by what a line brings *)

(** What a retained line brings to [product_groups]: its amount, its
    description, its key and its discount flag. *)
Definition contribution : Type := float * string * string * string.

(** The amount [app.py] derives for a line. *)
Definition app_line_amount (line : json) : result float :=
  let* total := Json.get "total" (JInt 0) line in
  let* subTotal := Json.get "subTotal" (JInt 0) line in
  App.amount_of total subTotal.

(** The amount [main.py] derives for a line. *)
Definition main_line_amount (line : json) : result float :=
  let* total := Json.get "total" (JInt 0) line in
  Main.amount_of total.

(** The discount flag computed for a line. *)
Definition line_flag (line : json) : result string :=
  let* margins := Json.get "margins" (JList []) line in
  has_discount_of margins.

(** The description and the key of a line. *)
Definition line_key (line : json) : result (string * string) :=
  let* description := Json.get "description" (JStr "") line in
  base_product_of description.

(** Whether [app.py] drops a line of amount [amount]. *)
Definition app_dropped (line : json) (amount : float) : result bool :=
  if PrimFloat.eqb amount zero then
    let* is_credit_line := Json.get "isCreditLine" (JBool false) line in
    Ok (negb (Json.truthy is_credit_line))
  else Ok false.

(** What a line brings in [app.py]; nothing for a dropped line. *)
Definition app_contribution (line : json) : result (option contribution) :=
  let* amount := app_line_amount line in
  let* dropped := app_dropped line amount in
  if dropped then Ok None
  else
    let* db := line_key line in
    let* has_discount := line_flag line in
    Ok (Some (amount, fst db, snd db, has_discount)).

(** What a line brings in [main.py]. *)
Definition main_contribution (line : json) : result contribution :=
  let* amount := main_line_amount line in
  let* db := line_key line in
  let* has_discount := line_flag line in
  Ok (amount, fst db, snd db, has_discount).

(** [product_groups] after a contribution in [app.py]. *)
Definition app_add (c : contribution) (product_groups : Dict.t product_group)
  : Dict.t product_group :=
  let '(amount, description, base_product, has_discount) := c in
  update_group base_product (mark_discount has_discount)
    (update_group base_product (append_amount amount)
       (ensure_group base_product description has_discount product_groups)).

(** [product_groups] after a contribution in [main.py]. *)
Definition main_add (c : contribution) (product_groups : Dict.t product_group)
  : Dict.t product_group :=
  let '(amount, description, base_product, has_discount) := c in
  let product_groups :=
    ensure_group base_product description has_discount product_groups in
  let no_amounts :=
    match Dict.get base_product product_groups with
    | Some g => (length (pg_amounts g) =? 0)%nat
    | None => true
    end in
  let product_groups :=
    if PyFloat.nonzero amount || no_amounts
    then update_group base_product (append_amount amount) product_groups
    else product_groups in
  update_group base_product (mark_discount has_discount) product_groups.

(** The group of [k] is there and its discount flag is Y. *)
Definition flagged (k : string) (product_groups : Dict.t product_group) : Prop :=
  exists g, Dict.get k product_groups = Some g /\ pg_discount g = "Y".

(** The group of [k] after an item has gone under [key]. *)
Definition joined (key : string) (it : item) (grouped : Dict.t (list item))
    (k : string) : option (list item) :=
  if String.eqb key k
  then Some (default [] (Dict.get k grouped) ++ [it])%list
  else Dict.get k grouped.


(** The characters of [q] all differ from each character of [avoid]. *)
Definition avoids (avoid : list ascii) (q : string) : bool :=
  all_chars (fun a => forallb (fun b => negb (Ascii.eqb a b)) avoid) q.

(** ** A small environment for the examples

    Names end in their suffix; bytes are their own text; the only text
    the loader accepts is an empty object; one file holds a table and
    the other is no PDF. *)
Module Example.

Definition path_suffix (name : string) : string :=
  if Str.endswith ".json" name then ".json"
  else if Str.endswith ".pdf" name then ".pdf"
  else "".

Definition decode_utf8 (content : string) : result string := Ok content.

Definition json_loads (text : string) : result json :=
  if String.eqb text "{}" then Ok (JDict []) else Raise JSONDecodeError.

Definition read_text (path : string) : result string := Ok "{lines: [".

Definition json_load (path : string) : result json :=
  let* text := read_text path in json_loads text.

Definition good_table : list (list cell) :=
  [ [Some "S.No"; Some "Product"; Some "Amount excl. tax (USD)"; Some "Discount"];
    [Some "1"; Some "Widget"; Some "USD 100.00"; Some "Y"] ].

Definition pdf_tables (name : string)
  : result (list (list (list (list cell)))) :=
  if Str.endswith "good.pdf" name then Ok [[good_table]]
  else Raise PDFSyntaxError.

Definition str_exn (e : exn) : string := "failed".

End Example.

(** ** Notions used by the further properties *)

(** The state of the loop of [group_by_sno]: distinct keys, no empty
    group. *)
Definition well_grouped (grouped : Dict.t (list item)) : Prop :=
  NoDup (Dict.keys grouped) /\ Forall (fun kv => snd kv <> []) grouped.

(** The groups the grouper is expected to make of the rows of the
    product groups, the first one numbered [i]. *)
Definition numbered_groups (i : nat) (product_groups : Dict.t product_group)
  : Dict.t (list item) :=
  map (fun ig => (Str.of_nat (fst ig), group_items (fst ig) (snd (snd ig))))
    (enumerate i product_groups).

(** The amounts of the product groups, one group after the other. *)
Definition all_amounts (product_groups : Dict.t product_group) : list float :=
  concat (map (fun kg => pg_amounts (snd kg)) product_groups).

(** The amounts of the lines [app.py] retains, in the order of the lines. *)
Definition app_retained_amounts (lines : list json) : list float :=
  omap (fun line =>
          match app_contribution line with
          | Ok (Some (amount, _, _, _)) => Some amount
          | _ => None
          end) lines.

(** The state of the loop over the lines: distinct keys, and at least
    one amount in every group. *)
Definition well_formed_groups (product_groups : Dict.t product_group) : Prop :=
  NoDup (Dict.keys product_groups) /\
  forall k g, Dict.get k product_groups = Some g -> pg_amounts g <> [].

(** The rank the renderer sorts a key by; 999 stands in where the key
    function raises. *)
Definition rank (x : string) : Z :=
  match sort_key x with Ok z => z | Raise _ => 999 end.



(** The cells one group takes when its head is on row [r]. *)
Definition group_cell (r : nat) (k : string) (items : list item) (name : string)
  : option cell_value :=
  match items with
  | [] => None
  | first_item :: _ =>
      if String.eqb name (cell_name "A" r) then Some (VStr k)
      else if String.eqb name (cell_name "B" r)
      then Some (VStr (discount first_item))
      else if String.eqb name (cell_name "C" r)
      then Some (VStr (format_product_text (product first_item)))
      else if String.eqb name (cell_name "E" r)
      then Some (VStr (group_formula r (length items)))
      else None
  end.



(** The exceptions the JSON extractors can raise on parsed data. *)
Definition json_error (e : exn) : Prop :=
  e = AttributeError \/ e = TypeError \/ e = OverflowError.


(** Every resolved column is below [n]. *)
Definition columns_below (n : nat) (cols : columns) : Prop :=
  (forall i, sno_idx cols = Some i -> (i < n)%nat) /\
  (forall i, product_idx cols = Some i -> (i < n)%nat) /\
  (forall i, amount_excl_tax_idx cols = Some i -> (i < n)%nat) /\
  (forall i, discount_idx cols = Some i -> (i < n)%nat).


(** A text without the character [c]. *)
Definition without (c : ascii) (s : string) : bool :=
  all_chars (fun a => negb (Ascii.eqb a c)) s.

(** A text of whitespace only. *)
Definition blank (s : string) : bool := all_chars Str.is_space s.

(** * Properties *)

(** ** The amount parser *)

Section AmountParser.

Lemma strip_underscores_raises s : forall prev e,
  PyFloat.strip_underscores prev s = Raise e -> e = ValueError.
Proof.
  induction s as [|c s IH]; intros prev e; simpl.
  - destruct (bool_decide _); congruence.
  - destruct (Ascii.eqb c "_").
    + destruct prev as [p|]; [destruct (Str.is_digit p)|]; eauto; congruence.
    + destruct (_ && _); [congruence|].
      destruct (PyFloat.strip_underscores (Some c) s) eqn:E; simpl; [congruence|].
      intros [= <-]; eauto.
Qed.

Lemma parse_decimal_raises s e :
  PyFloat.parse_decimal s = Raise e -> e = ValueError.
Proof.
  unfold PyFloat.parse_decimal.
  destruct (PyFloat.take_digits 0 0 s) as [[i ni] r1].
  destruct (match r1 with String "."%char r => _ | _ => _ end) as [[m nf] r2].
  destruct (_ =? _)%nat; [congruence|].
  destruct r2 as [|c r3]; [congruence|].
  destruct (_ || _); [|congruence].
  destruct (PyFloat.take_sign r3) as [eneg r4].
  destruct (PyFloat.take_digits 0 0 r4) as [[ev ne] r5].
  destruct (_ || _); congruence.
Qed.

Lemma of_str_raises s e : PyFloat.of_str s = Raise e -> e = ValueError.
Proof.
  unfold PyFloat.of_str.
  destruct (PyFloat.strip_underscores None (Str.strip s)) as [t|e'] eqn:E; simpl.
  - destruct (PyFloat.take_sign t) as [neg r].
    destruct (_ || _); [congruence|].
    destruct (String.eqb _ "nan"); [congruence|].
    destruct (PyFloat.parse_decimal r) eqn:E'; simpl; [congruence|].
    intros [= <-]. eauto using parse_decimal_raises.
  - intros [= <-]. eauto using strip_underscores_raises.
Qed.

Lemma parse_amount_returns s : exists v, parse_amount s = Ok v.
Proof.
  unfold parse_amount.
  destruct (_ || _); [eauto|].
  destruct (clean_amount s) as [is_negative cleaned].
  destruct (PyFloat.of_str cleaned) as [v|e] eqn:E; [eauto|].
  apply of_str_raises in E as ->. eauto.
Qed.

End AmountParser.

#[local] Set Warnings "-inexact-float".

(** C4. [parse_amount] returns a float for every text and never raises;
    it gives 1234.56 for "USD 1,234.56", -1234.56 for "-1,234.56" and
    1234.56 for "1234.56"; it gives 0.0 for "" and for "N/A", and for
    every text whose cleaned remainder [float] rejects. *)
Theorem parse_amount_total_lenient :
  (forall s, exists v, parse_amount s = Ok v) /\
  parse_amount "USD 1,234.56" = Ok 1234.56%float /\
  parse_amount "-1,234.56" = Ok (- 1234.56)%float /\
  parse_amount "1234.56" = Ok 1234.56%float /\
  parse_amount "" = Ok 0%float /\
  parse_amount "N/A" = Ok 0%float /\
  (forall s e, PyFloat.of_str (snd (clean_amount s)) = Raise e ->
               parse_amount s = Ok 0%float).
Proof.
  split; [exact parse_amount_returns|].
  repeat (split; [vm_compute; reflexivity|]).
  intros s e E. unfold parse_amount.
  destruct (_ || _); [reflexivity|].
  destruct (clean_amount s) as [is_negative cleaned]; simpl in E.
  rewrite E. apply of_str_raises in E as ->. reflexivity.
Qed.

Lemma parse_amount_total_lenient_witness :
  PyFloat.of_str (snd (clean_amount "Price: n/a")) = Raise ValueError /\
  parse_amount "Price: n/a" = Ok 0%float.
Proof.
  split; [vm_compute; reflexivity|].
  apply (proj2 (proj2 (proj2 (proj2 (proj2 (proj2 parse_amount_total_lenient)))))
           "Price: n/a" ValueError).
  vm_compute; reflexivity.
Defined.

(** ** The product text formatter *)

Section Formatter.

Import Spec.

Lemma append_cons a (t r : string) : String a t ++ r = String a (t ++ r).
Proof. reflexivity. Qed.

Lemma length_append (t r : string) :
  String.length (t ++ r) = (String.length t + String.length r)%nat.
Proof.
  induction t as [|a t IH]; [done|].
  rewrite append_cons. simpl. by rewrite IH.
Qed.

Lemma avoids_cons avoid a q :
  avoids avoid (String a q)
  = forallb (fun b => negb (Ascii.eqb a b)) avoid && avoids avoid q.
Proof. reflexivity. Qed.

Lemma startswith_app p r : Str.startswith p (p ++ r) = true.
Proof.
  induction p as [|a p IH]; [done|].
  rewrite append_cons. simpl. by rewrite Ascii.eqb_refl.
Qed.

Lemma startswith_split p s :
  Str.startswith p s = true -> exists r, s = p ++ r.
Proof.
  revert s. induction p as [|a p IH]; intros s; simpl; [eauto|].
  destruct s as [|b s]; [done|].
  intros [Hab Hp]%andb_true_iff. apply Ascii.eqb_eq in Hab as ->.
  destruct (IH _ Hp) as [r ->]. exists r. by rewrite append_cons.
Qed.

Lemma startswith_cons a p b s :
  Str.startswith (String a p) (String b s) = Ascii.eqb a b && Str.startswith p s.
Proof. reflexivity. Qed.

Lemma startswith_head h t c s :
  Str.startswith (String h t) (String c s) = true -> c = h.
Proof. simpl. intros [H _]%andb_true_iff. by apply Ascii.eqb_eq in H. Qed.

(** Copying the rest of a match. *)
Lemma sub_label_copy label t r :
  sub_label label (String.length t) (t ++ r) = t ++ sub_label label 0 r.
Proof.
  induction t as [|a t IH]; [done|].
  rewrite !append_cons. simpl. by rewrite IH.
Qed.

(** No occurrence of a label starts inside a text without the first
    character of the label. *)
Lemma breaks_before_copy h t0 t r :
  avoids [h] t = true ->
  breaks_before (String h t0) (t ++ r) = t ++ breaks_before (String h t0) r.
Proof.
  induction t as [|a t IH]; [done|].
  rewrite avoids_cons. cbn [forallb]. rewrite andb_true_r.
  intros [Ha%negb_true_iff Ht]%andb_true_iff.
  rewrite !append_cons. cbn [breaks_before Str.startswith].
  rewrite Ascii.eqb_sym, Ha. cbn [andb]. by rewrite (IH Ht).
Qed.

(** [re.sub] with a label whose first character does not come back in it
    breaks before every occurrence. *)
Lemma sub_label_breaks_before h t :
  avoids [h] t = true ->
  forall s, sub_label (String h t) 0 s = breaks_before (String h t) s.
Proof.
  intros Ht s. remember (String.length s) as n eqn:Hn.
  revert s Hn. induction (lt_wf n) as [n _ IH]. intros s Hn.
  destruct s as [|c s]; [done|].
  cbn [sub_label breaks_before].
  destruct (Str.startswith (String h t) (String c s)) eqn:E.
  - pose proof (startswith_head _ _ _ _ E) as ->.
    apply startswith_split in E as [r Hr]. rewrite append_cons in Hr.
    injection Hr as ->.
    cbn [String.length]. rewrite Nat.sub_succ, Nat.sub_0_r.
    rewrite sub_label_copy, breaks_before_copy by done.
    do 3 f_equal. eapply IH; [|reflexivity].
    subst n. cbn [String.length]. rewrite length_append. lia.
  - f_equal. eapply IH; [|reflexivity]. subst n. simpl. lia.
Qed.

(** Breaking before a label does not change where a text [q] without
    line breaks and without the first character of that label starts. *)
Lemma startswith_breaks_before h t q s :
  avoids [Str.newline; h] q = true ->
  Str.startswith q (breaks_before (String h t) s) = Str.startswith q s.
Proof.
  revert s. induction q as [|a q IH]; intros s; [done|].
  rewrite avoids_cons. cbn [forallb]. rewrite andb_true_r.
  intros [[Hn%negb_true_iff Hh%negb_true_iff]%andb_true_iff Hq]%andb_true_iff.
  destruct s as [|c s]; [done|]. cbn [breaks_before].
  destruct (Str.startswith (String h t) (String c s)) eqn:E.
  - apply startswith_head in E as ->. simpl. by rewrite Hn, Hh.
  - simpl. by rewrite (IH _ Hq).
Qed.

Lemma startswith_insert_breaks q s :
  avoids [Str.newline; "E"%char; "B"%char] q = true ->
  Str.startswith q (insert_breaks s) = Str.startswith q s.
Proof.
  revert s. induction q as [|a q IH]; intros s; [done|].
  rewrite avoids_cons. cbn [forallb]. rewrite andb_true_r.
  intros [[Hn [HE HB]%andb_true_iff]%andb_true_iff Hq]%andb_true_iff.
  apply negb_true_iff in Hn, HE, HB.
  destruct s as [|c s]; [done|]. cbn [insert_breaks].
  destruct (label_here (String c s)) eqn:E.
  - assert (c = "E"%char \/ c = "B"%char) as Hc.
    { apply orb_true_iff in E as [E|E]; apply startswith_head in E; auto. }
    simpl. rewrite Hn. by destruct Hc as [-> | ->]; rewrite ?HE, ?HB.
  - simpl. by rewrite (IH _ Hq).
Qed.

Lemma format_is_insert_breaks s : format_product_text s = insert_breaks s.
Proof.
  unfold format_product_text. destruct s as [|c0 s0]; [done|].
  cbn [Str.truthy negb]. generalize (String c0 s0). clear c0 s0. intros s.
  unfold entitlement_label, billing_label.
  rewrite !sub_label_breaks_before by (vm_compute; reflexivity).
  induction s as [|c s IH]; [done|].
  cbn [breaks_before insert_breaks]. unfold label_here.
  unfold entitlement_label, billing_label.
  destruct (Str.startswith "Entitlement Number:" (String c s)) eqn:E.
  - apply startswith_head in E as ->.
    cbn [orb]. change (breaks_before "Billing period:" (String Str.newline ?x))
      with (String Str.newline (breaks_before "Billing period:" x)).
    change (breaks_before "Billing period:" (String "E" ?x))
      with (String "E" (breaks_before "Billing period:" x)).
    by rewrite IH.
  - cbn [orb breaks_before].
    replace (Str.startswith "Billing period:"
               (String c (breaks_before "Entitlement Number:" s)))
      with (Str.startswith "Billing period:" (String c s)).
    + destruct (Str.startswith "Billing period:" (String c s)); by rewrite IH.
    + rewrite !(startswith_cons "B"). f_equal. symmetry.
      apply startswith_breaks_before. vm_compute; reflexivity.
Qed.

Lemma label_here_insert_breaks c s :
  label_here (String c (insert_breaks s)) = label_here (String c s).
Proof.
  unfold label_here, entitlement_label, billing_label.
  rewrite !(startswith_cons "E"), !(startswith_cons "B").
  by rewrite !startswith_insert_breaks by (vm_compute; reflexivity).
Qed.

Lemma label_here_newline s : label_here (String Str.newline s) = false.
Proof. done. Qed.

Lemma occurrences_insert_breaks s :
  occurrences (insert_breaks s) = occurrences s.
Proof.
  induction s as [|c s IH]; [done|].
  cbn [insert_breaks]. destruct (label_here (String c s)) eqn:E.
  - cbn [occurrences]. rewrite label_here_newline, label_here_insert_breaks, E, IH.
    done.
  - cbn [occurrences]. by rewrite label_here_insert_breaks, E, IH.
Qed.

Lemma length_insert_breaks s :
  String.length (insert_breaks s) = (String.length s + occurrences s)%nat.
Proof.
  induction s as [|c s IH]; [done|].
  cbn [insert_breaks occurrences].
  destruct (label_here (String c s)); cbn [String.length]; rewrite IH; lia.
Qed.

Lemma contains_occurrences s :
  Str.contains entitlement_label s = true \/ Str.contains billing_label s = true ->
  (0 < occurrences s)%nat.
Proof.
  induction s as [|c s IH]; cbn [Str.contains occurrences].
  - rewrite !orb_false_r. by intros [?|?].
  - unfold label_here. intros H.
    destruct (Str.startswith entitlement_label (String c s)); [simpl; lia|].
    destruct (Str.startswith billing_label (String c s)); [simpl; lia|].
    simpl in *. apply IH. exact H.
Qed.

End Formatter.

(** C9. [format_product_text] puts a line break immediately before each
    occurrence of "Entitlement Number:" and of "Billing period:" and
    changes nothing else; it is not idempotent: on every text that has
    one of the labels, a second run adds breaks again and gives a text
    other than that of the first run. *)
Theorem format_product_text_breaks_not_idempotent :
  (forall s, format_product_text s = Spec.insert_breaks s) /\
  (forall s,
     Str.contains entitlement_label s = true \/
     Str.contains billing_label s = true ->
     format_product_text (format_product_text s) <> format_product_text s).
Proof.
  split; [exact format_is_insert_breaks|].
  intros s Hs%contains_occurrences. rewrite !format_is_insert_breaks.
  intros Heq%(f_equal String.length).
  rewrite !length_insert_breaks, occurrences_insert_breaks in Heq. lia.
Qed.

Lemma format_product_text_breaks_not_idempotent_witness :
  (Str.contains entitlement_label "Jira Entitlement Number: E-1 Billing period: May" = true \/
   Str.contains billing_label "Jira Entitlement Number: E-1 Billing period: May" = true) /\
  format_product_text
    (format_product_text "Jira Entitlement Number: E-1 Billing period: May")
  <> format_product_text "Jira Entitlement Number: E-1 Billing period: May".
Proof.
  split; [left; vm_compute; reflexivity|].
  apply (proj2 format_product_text_breaks_not_idempotent).
  left; vm_compute; reflexivity.
Defined.

(** ** Dictionaries in insertion order *)

Section DictFacts.

Context {V : Type}.
Implicit Types (d : Dict.t V) (k : string) (v : V).

Lemma dict_get_set_eq k v d : Dict.get k (Dict.set k v d) = Some v.
Proof.
  induction d as [|[k' v'] d IH]; simpl.
  - by rewrite String.eqb_refl.
  - destruct (String.eqb k k') eqn:E; simpl; rewrite ?String.eqb_refl, ?E; done.
Qed.

Lemma dict_get_set_ne k k' v d :
  k <> k' -> Dict.get k' (Dict.set k v d) = Dict.get k' d.
Proof.
  intros Hne. induction d as [|[k0 v0] d IH]; simpl.
  - by apply String.eqb_neq in Hne; rewrite String.eqb_sym, Hne.
  - destruct (String.eqb k k0) eqn:E; simpl.
    + apply String.eqb_eq in E as <-.
      by apply String.eqb_neq in Hne; rewrite String.eqb_sym, Hne.
    + by rewrite IH.
Qed.

Lemma dict_mem_get k d :
  Dict.mem k d = match Dict.get k d with Some _ => true | None => false end.
Proof. reflexivity. Qed.

End DictFacts.

(** ** The grouper *)

Section Grouper.

Import Spec.

Lemma group_step_spec grouped current_sno it :
  let key := effective_key (default "" current_sno) it in
  exists grouped',
    group_step (grouped, current_sno) it = (grouped', Some key) /\
    forall k, Dict.get k grouped' = joined key it grouped k.
Proof.
  unfold group_step, effective_key, joined.
  set (choice := match current_sno with Some cur => _ | None => _ end).
  assert (choice =
          (if Str.truthy (sno it) then sno it else default "" current_sno,
           Some (if Str.truthy (sno it) then sno it else default "" current_sno)))
    as ->.
  { subst choice. destruct current_sno as [cur|]; simpl.
    - destruct (sno it) as [|c s]; simpl; [|done].
      destruct cur; done.
    - by destruct (sno it). }
  set (key := if Str.truthy (sno it) then sno it else default "" current_sno).
  eexists; split; [reflexivity|]. intros k.
  rewrite dict_mem_get.
  destruct (Dict.get key grouped) as [l|] eqn:Hl.
  - rewrite Hl. destruct (String.eqb key k) eqn:E.
    + apply String.eqb_eq in E as <-. by rewrite dict_get_set_eq, Hl.
    + apply String.eqb_neq in E. by rewrite dict_get_set_ne.
  - rewrite dict_get_set_eq. destruct (String.eqb key k) eqn:E.
    + apply String.eqb_eq in E as <-. by rewrite dict_get_set_eq, Hl.
    + apply String.eqb_neq in E. by rewrite !dict_get_set_ne.
Qed.

(** The group of [k] at the end of the loop: what it had, then the
    members among the items still to come. *)
Lemma fold_group_step items : forall grouped current_sno k,
  Dict.get k (fst (fold_left group_step items (grouped, current_sno)))
  = match Dict.get k grouped, members (default "" current_sno) k items with
    | None, [] => None
    | o, ms => Some (default [] o ++ ms)%list
    end.
Proof.
  induction items as [|it items IH]; intros grouped current_sno k.
  - simpl. destruct (Dict.get k grouped); by rewrite ?app_nil_r.
  - cbn [fold_left members].
    destruct (group_step_spec grouped current_sno it) as (g' & -> & Hg').
    rewrite IH, Hg'. unfold joined. cbn [default].
    destruct (String.eqb _ k) eqn:E.
    + destruct (Dict.get k grouped) as [l|]; simpl.
      * destruct (members _ k items); by rewrite <- ?app_assoc.
      * by destruct (members _ k items).
    + done.
Qed.

Lemma group_by_sno_members items k :
  Dict.get k (group_by_sno items)
  = match members "" k items with [] => None | ms => Some ms end.
Proof. unfold group_by_sno. by rewrite fold_group_step. Qed.

End Grouper.

(** C2. For every sequence of items, the group of each key holds, in the
    order of the input, the items with that sequence number and the
    items with an empty one that follow them (continuation), and a key
    without such items has no group; a first item with an empty sequence
    number goes under the empty key; items numbered "1", "", "2", "", ""
    give the two groups "1" with the first two items and "2" with the
    last three. *)
Theorem group_by_sno_continuation :
  (forall items k,
     Dict.get k (group_by_sno items)
     = match Spec.members "" k items with [] => None | ms => Some ms end) /\
  (forall it rest,
     sno it = "" ->
     exists l, Dict.get "" (group_by_sno (it :: rest)) = Some (it :: l)) /\
  (forall a b c d e,
     sno a = "1" -> sno b = "" -> sno c = "2" -> sno d = "" -> sno e = "" ->
     group_by_sno [a; b; c; d; e] = [("1", [a; b]); ("2", [c; d; e])]).
Proof.
  split; [exact group_by_sno_members|]. split.
  - intros it rest Hit. rewrite group_by_sno_members.
    cbn [Spec.members]. unfold Spec.effective_key. rewrite Hit. simpl. eauto.
  - intros a b c d e Ha Hb Hc Hd He.
    unfold group_by_sno. cbn [fold_left]. unfold group_step.
    rewrite Ha, Hb, Hc, Hd, He. reflexivity.
Qed.

Lemma group_by_sno_continuation_witness :
  group_by_sno
    [Item "1" "Jira" 10 "Y"; Item "" "" 20 "N"; Item "2" "Confluence" 30 "N";
     Item "" "" 40 "N"; Item "" "" 50 "N"]
  = [("1", [Item "1" "Jira" 10 "Y"; Item "" "" 20 "N"]);
     ("2", [Item "2" "Confluence" 30 "N"; Item "" "" 40 "N"; Item "" "" 50 "N"])]
  /\ exists l,
       Dict.get "" (group_by_sno [Item "" "orphan" 5 "N"; Item "7" "X" 1 "N"])
       = Some (Item "" "orphan" 5 "N" :: l).
Proof.
  split.
  - apply (proj2 (proj2 group_by_sno_continuation)); reflexivity.
  - apply (proj1 (proj2 group_by_sno_continuation)); reflexivity.
Defined.

(** ** The renderer *)

Section Renderer.

Import Spec.

Lemma to_uint_nonnil n : Nat.to_uint n <> Decimal.Nil.
Proof.
  rewrite <- (DecimalNat.Unsigned.of_to n) at 1.
  rewrite DecimalNat.Unsigned.to_of. apply DecimalFacts.unorm_nonnil.
Qed.

Lemma of_nat_inj n m : Str.of_nat n = Str.of_nat m -> n = m.
Proof.
  unfold Str.of_nat. intros H%(f_equal NilZero.uint_of_string).
  rewrite !NilZero.usu in H by apply to_uint_nonnil.
  injection H as H. by apply DecimalNat.Unsigned.to_uint_inj.
Qed.











End Renderer.



(** ** The row order of the renderer *)

(** C5. The key function gives a key that is no run of digits the rank
    999, so such a key comes before every numeric key above 999: with
    the keys "1000" and "abc", in either order of insertion, "abc" is
    rendered first (row 2) and "1000" after it (row 3). *)
Theorem text_key_sorts_before_1000 :
  sorted_keys ["1000"; "abc"] = Ok ["abc"; "1000"] /\
  sorted_keys ["abc"; "1000"] = Ok ["abc"; "1000"] /\
  exists ws,
    create_excel_content
      (group_by_sno [Item "1000" "Late" 1 "N"; Item "abc" "Text" 2 "N"]) = Ok ws /\
    ws !! "A2" = Some (VStr "abc") /\
    ws !! "A3" = Some (VStr "1000").
Proof.
  split; [reflexivity|]. split; [reflexivity|].
  eexists. split; [reflexivity|]. split; vm_compute; reflexivity.
Qed.

(** ** The PDF extractor *)

Section PdfRows.

Lemma row_get_short (row : list cell) i :
  (length row <= i)%nat -> row_get row i = Raise IndexError.
Proof.
  intros H. unfold row_get. by rewrite (lookup_ge_None_2 row i).
Qed.

Lemma row_get_in (row : list cell) i :
  (i < length row)%nat -> exists c, row_get row i = Ok c.
Proof.
  intros [c Hc]%lookup_lt_is_Some_2. unfold row_get. rewrite Hc. eauto.
Qed.

Lemma row_get_raises (row : list cell) i e :
  row_get row i = Raise e -> e = IndexError.
Proof. unfold row_get. destruct (row !! i); congruence. Qed.

(** A row that passes the length guard and does not reach the discount
    column raises [IndexError]. *)
Lemma process_row_short si pi ai di table_data row :
  (Nat.max (Nat.max si pi) ai < length row)%nat ->
  (length row <= di)%nat ->
  process_row si pi ai (Some di) table_data row = Raise IndexError.
Proof.
  intros Hguard Hshort. unfold process_row.
  destruct (Nat.leb_spec (length row) (Nat.max (Nat.max si pi) ai)); [lia|].
  destruct (row_get_in row si) as [c1 ->]; [lia|].
  destruct (row_get_in row pi) as [c2 ->]; [lia|].
  destruct (row_get_in row ai) as [c3 ->]; [lia|].
  cbn [Py.bind]. by rewrite row_get_short.
Qed.

(** [IndexError] is all that the body of the row loop can raise. *)
Lemma process_row_raises si pi ai di table_data row e :
  process_row si pi ai di table_data row = Raise e -> e = IndexError.
Proof.
  unfold process_row. destruct (_ <=? _)%nat; [congruence|].
  destruct (row_get row si) as [c1|e1] eqn:E1; cbn [Py.bind];
    [|intros [= <-]; eauto using row_get_raises].
  destruct (row_get row pi) as [c2|e2] eqn:E2; cbn [Py.bind];
    [|intros [= <-]; eauto using row_get_raises].
  destruct (row_get row ai) as [c3|e3] eqn:E3; cbn [Py.bind];
    [|intros [= <-]; eauto using row_get_raises].
  destruct di as [d|]; cbn [Py.bind].
  - destruct (row_get row d) as [c4|e4] eqn:E4; cbn [Py.bind];
      [|intros [= <-]; eauto using row_get_raises].
    destruct (_ && _); [congruence|].
    destruct (parse_amount_returns (cell_text c3)) as [v ->]. cbn. congruence.
  - destruct (_ && _); [congruence|].
    destruct (parse_amount_returns (cell_text c3)) as [v ->]. cbn. congruence.
Qed.

(** The row loop raises as soon as one of its rows is such a row. *)
Lemma for_each_row_short si pi ai di rows : forall row table_data,
  row ∈ rows ->
  (Nat.max (Nat.max si pi) ai < length row)%nat ->
  (length row <= di)%nat ->
  Py.for_each (fun row td => process_row si pi ai (Some di) td row) rows table_data
  = Raise IndexError.
Proof.
  induction rows as [|r rows IH]; intros row table_data Hin Hguard Hshort.
  - by apply elem_of_nil in Hin.
  - cbn [Py.for_each].
    destruct (process_row si pi ai (Some di) table_data r) as [td|e] eqn:E.
    + cbn [Py.bind]. apply elem_of_cons in Hin as [->|Hin].
      * rewrite process_row_short in E by done. congruence.
      * eauto.
    + apply process_row_raises in E as ->. reflexivity.
Qed.

End PdfRows.

(** C10. The length guard of the row loop looks at the sequence-number,
    product and amount columns only. When the discount column lies
    beyond these three, a row that passes the guard and does not reach
    the discount column makes the read of its discount cell raise
    [IndexError]; the extraction of a table with such a row raises it
    too. *)
Theorem discount_cell_out_of_range :
  (forall si pi ai di table_data row,
     (Nat.max (Nat.max si pi) ai < di)%nat ->
     (Nat.max (Nat.max si pi) ai < length row)%nat ->
     (length row <= di)%nat ->
     process_row si pi ai (Some di) table_data row = Raise IndexError) /\
  (forall header rows si pi ai di row,
     resolve_columns header = Columns (Some si) (Some pi) (Some ai) (Some di) ->
     (Nat.max (Nat.max si pi) ai < di)%nat ->
     row ∈ rows ->
     (Nat.max (Nat.max si pi) ai < length row)%nat ->
     (length row <= di)%nat ->
     extract_table (header :: rows) = Raise IndexError).
Proof.
  split.
  - intros. by apply process_row_short.
  - intros header rows si pi ai di row Hcols _ Hin Hguard Hshort.
    unfold extract_table. destruct rows as [|r rows].
    { by apply elem_of_nil in Hin. }
    rewrite Hcols. cbn [sno_idx product_idx amount_excl_tax_idx discount_idx].
    by apply (for_each_row_short si pi ai di (r :: rows) row).
Qed.

Lemma discount_cell_out_of_range_witness :
  process_row 0 1 2 (Some 3%nat) [] [Some "1"; Some "Widget"; Some "USD 100.00"]
  = Raise IndexError /\
  extract_table
    [ [Some "S.No"; Some "Product"; Some "Amount excl. tax (USD)"; Some "Discount"];
      [Some "1"; Some "Widget"; Some "USD 100.00"; Some "Y"];
      [Some "2"; Some "Gadget"; Some "USD 5.00"] ]
  = Raise IndexError.
Proof.
  split.
  - apply (proj1 discount_cell_out_of_range); simpl; lia.
  - apply (proj2 discount_cell_out_of_range _ _ 0%nat 1%nat 2%nat 3%nat
             [Some "2"; Some "Gadget"; Some "USD 5.00"]).
    + reflexivity.
    + simpl; lia.
    + apply list_elem_of_further, list_elem_of_here.
    + simpl; lia.
    + simpl; lia.
Defined.

(** ** The JSON extractors *)

Section JsonLines.

(** Only an object has [get]; on an object [get] returns. *)
Lemma get_ok k default line v :
  Json.get k default line = Ok v -> exists d, line = JDict d.
Proof. destruct line; simpl; try congruence. eauto. Qed.

Lemma bind_ok {A B} (m : result A) (k : A -> result B) b :
  (let* x := m in k x) = Ok b -> exists a, m = Ok a /\ k a = Ok b.
Proof. destruct m; simpl; [eauto|congruence]. Qed.

(** The loop body of [app.py] is: find what the line brings, add it. *)
Lemma app_process_line_contribution line product_groups :
  App.process_line line product_groups
  = let* c := app_contribution line in
    Ok (match c with
        | Some c => app_add c product_groups
        | None => product_groups
        end).
Proof.
  destruct line; try reflexivity.
  unfold App.process_line, app_contribution, app_line_amount, app_dropped,
    line_key, line_flag. cbn [Json.get Py.bind].
  destruct (App.amount_of _ _) as [amount|e]; [|reflexivity]. cbn [Py.bind].
  destruct (PrimFloat.eqb amount zero); cbn [Py.bind].
  - destruct (negb _); [reflexivity|].
    destruct (base_product_of _) as [[description base]|e]; [|reflexivity].
    cbn [Py.bind]. destruct (has_discount_of _); reflexivity.
  - destruct (base_product_of _) as [[description base]|e]; [|reflexivity].
    cbn [Py.bind]. destruct (has_discount_of _); reflexivity.
Qed.



End JsonLines.

#[local] Set Warnings "-inexact-float".




(** ** Where the billing lines are looked for *)

Section Paths.

Import Spec.

Lemma find_lines_miss path rest data :
  ~ hit path data ->
  App.find_lines (path :: rest) data = App.find_lines rest data.
Proof.
  intros Hmiss. cbn [App.find_lines].
  destruct (App.traverse path data) as [[| | | | |[|l ls]|]|] eqn:E; try reflexivity.
  destruct Hmiss. by exists l, ls.
Qed.

Lemma find_lines_none paths data :
  (forall path, path ∈ paths -> ~ hit path data) ->
  App.find_lines paths data = [].
Proof.
  induction paths as [|path paths IH]; intros Hmiss; [reflexivity|].
  rewrite find_lines_miss by (apply Hmiss, list_elem_of_here).
  apply IH. intros p Hp. by apply Hmiss, list_elem_of_further.
Qed.

Lemma find_lines_first before path after data l ls :
  (forall p, p ∈ before -> ~ hit p data) ->
  App.traverse path data = Some (JList (l :: ls)) ->
  App.find_lines (before ++ path :: after)%list data = l :: ls.
Proof.
  induction before as [|p before IH]; intros Hmiss Hhit.
  - cbn [app App.find_lines]. by rewrite Hhit.
  - cbn [app]. rewrite find_lines_miss by (apply Hmiss, list_elem_of_here).
    apply IH; [|done]. intros q Hq. by apply Hmiss, list_elem_of_further.
Qed.

End Paths.

(** C6 (as amended). [app.py] probes the paths in the order
    upcomingBills.lines, lines, QuoteDetails.upcomingBills.lines,
    quote.upcomingBills.lines, data.upcomingBills.lines. The first path
    whose full traversal ends on a list that is not empty gives the
    lines, whatever the paths after it hold; when no path does, and the
    look at the structure that follows goes through, the result is
    empty. [main.py] has the first two paths only and takes
    upcomingBills.lines whenever both keys are there. *)
Theorem lines_path_priority :
  App.possible_paths
  = [ ["upcomingBills"; "lines"]; ["lines"];
      ["QuoteDetails"; "upcomingBills"; "lines"];
      ["quote"; "upcomingBills"; "lines"];
      ["data"; "upcomingBills"; "lines"] ] /\
  (forall before path after data l ls,
     (forall p, p ∈ before -> ~ Spec.hit p data) ->
     App.traverse path data = Some (JList (l :: ls)) ->
     App.find_lines (before ++ path :: after)%list data = l :: ls) /\
  (forall data,
     (forall p, p ∈ App.possible_paths -> ~ Spec.hit p data) ->
     App.inspect_structure data = Ok tt ->
     App.extract_from_data data = Ok []) /\
  (forall d bills lines,
     Dict.get "upcomingBills" d = Some (JDict bills) ->
     Dict.get "lines" bills = Some lines ->
     Main.find_lines (JDict d) = Ok lines) /\
  (forall d lines,
     Dict.get "upcomingBills" d = None ->
     Dict.get "lines" d = Some lines ->
     Main.find_lines (JDict d) = Ok lines).
Proof.
  split; [reflexivity|]. split; [exact find_lines_first|]. split; [|split].
  - intros data Hmiss Hinspect. unfold App.extract_from_data.
    rewrite (find_lines_none _ _ Hmiss), Hinspect. reflexivity.
  - intros d bills lines Hb Hl. unfold Main.find_lines.
    cbn [Json.contains Json.getitem Py.bind]. rewrite !dict_mem_get, Hb.
    cbn [Json.contains Json.getitem Py.bind]. by rewrite !dict_mem_get, Hl.
  - intros d lines Hb Hl. unfold Main.find_lines.
    cbn [Json.contains Json.getitem Py.bind]. rewrite !dict_mem_get, Hb.
    cbn [Json.contains Json.getitem Py.bind]. by rewrite Hl.
Qed.

Lemma lines_path_priority_witness :
  App.find_lines App.possible_paths
    (JDict [("quote", JDict [("upcomingBills", JDict [("lines", JList [JStr "a"])])]);
            ("data", JDict [("upcomingBills", JDict [("lines", JList [JStr "b"])])]);
            ("lines", JList [])])
  = [JStr "a"] /\
  App.extract_from_data (JDict [("lines", JList []); ("bills", JStr "none")]) = Ok [] /\
  Main.find_lines
    (JDict [("lines", JList [JStr "flat"]);
            ("upcomingBills", JDict [("lines", JList [])])])
  = Ok (JList []) /\
  Main.find_lines (JDict [("lines", JList [JStr "flat"])]) = Ok (JList [JStr "flat"]).
Proof.
  split; [|split; [|split]].
  - apply (proj1 (proj2 lines_path_priority)
             [ ["upcomingBills"; "lines"]; ["lines"];
               ["QuoteDetails"; "upcomingBills"; "lines"] ]
             ["quote"; "upcomingBills"; "lines"]
             [ ["data"; "upcomingBills"; "lines"] ]).
    + intros p Hp [l [ls Hhit]].
      repeat (apply elem_of_cons in Hp as [->|Hp]; [vm_compute in Hhit; discriminate|]).
      by apply elem_of_nil in Hp.
    + reflexivity.
  - apply (proj1 (proj2 (proj2 lines_path_priority))).
    + intros p Hp [l [ls Hhit]].
      repeat (apply elem_of_cons in Hp as [->|Hp]; [vm_compute in Hhit; discriminate|]).
      by apply elem_of_nil in Hp.
    + reflexivity.
  - apply (proj1 (proj2 (proj2 (proj2 lines_path_priority)))
             _ [("lines", JList [])]); reflexivity.
  - apply (proj2 (proj2 (proj2 (proj2 lines_path_priority)))); reflexivity.
Defined.

(** With lines both at the top and under upcomingBills, both extractors
    take those under upcomingBills, not the flat ones. *)
Lemma nested_lines_before_flat :
  App.find_lines App.possible_paths
    (JDict [("lines", JList [JStr "flat"]);
            ("upcomingBills", JDict [("lines", JList [JStr "nested"])])])
  = [JStr "nested"] /\
  App.find_lines App.possible_paths
    (JDict [("lines", JList [JStr "flat"]);
            ("upcomingBills", JDict [("lines", JList [JStr "nested"])])])
  <> [JStr "flat"] /\
  Main.find_lines
    (JDict [("lines", JList [JStr "flat"]);
            ("upcomingBills", JDict [("lines", JList [JStr "nested"])])])
  = Ok (JList [JStr "nested"]) /\
  App.find_lines App.possible_paths
    (JDict [("data", JDict [("lines", JList [JStr "wrapped"])])])
  = [].
Proof.
  split; [reflexivity|]. split; [|split; reflexivity].
  vm_compute. discriminate.
Qed.

(** ** The discount flag *)

Section Margins.

Import Spec.

Lemma margin_shows_discount_ok margin :
  margin_ok margin = true ->
  margin_shows_discount margin = Ok (positive_margin margin).
Proof.
  unfold margin_ok, positive_margin, margin_shows_discount.
  destruct margin as [| | | | | |d]; try discriminate.
  cbn [Json.is_dict andb Json.get Py.bind margin_percent margin_amount].
  destruct (Dict.get "percent" d) as [p|]; cbn [default from_option id].
  - destruct (Json.gt_zero p) as [[]|]; cbn [Py.bind Py.is_ok]; intros H;
      [reflexivity| |discriminate].
    by destruct (Dict.get "amount" d).
  - intros _. cbn. by destruct (Dict.get "amount" d).
Qed.

Lemma any_margin_ok margins :
  forallb margin_ok margins = true ->
  any_margin margins = Ok (existsb positive_margin margins).
Proof.
  induction margins as [|m ms IH]; [reflexivity|].
  cbn [forallb any_margin existsb]. intros [Hm Hms]%andb_true_iff.
  rewrite (margin_shows_discount_ok m Hm). cbn [Py.bind].
  destruct (positive_margin m); [reflexivity|]. by apply IH.
Qed.

Lemma has_discount_of_ok margins :
  forallb margin_ok margins = true ->
  has_discount_of (JList margins)
  = Ok (if existsb positive_margin margins then "Y" else "N").
Proof.
  intros H. unfold has_discount_of. cbn [Json.iter Py.bind].
  by rewrite (any_margin_ok margins H).
Qed.

End Margins.

(** ** The product groups *)

Section Groups.

Implicit Types (g : Dict.t product_group) (k key : string).

Lemma get_update_group k key f g :
  Dict.get k (update_group key f g)
  = if String.eqb key k then f <$> Dict.get k g else Dict.get k g.
Proof.
  unfold update_group. destruct (String.eqb key k) eqn:E.
  - apply String.eqb_eq in E as ->.
    destruct (Dict.get k g) as [grp|] eqn:Hk; [|by rewrite Hk].
    by rewrite dict_get_set_eq.
  - apply String.eqb_neq in E.
    destruct (Dict.get key g); [by rewrite dict_get_set_ne|done].
Qed.

Lemma get_ensure_group k key description has_discount g :
  Dict.get k (ensure_group key description has_discount g)
  = match Dict.get k g with
    | Some grp => Some grp
    | None =>
        if String.eqb key k then Some (ProductGroup description [] has_discount)
        else None
    end.
Proof.
  unfold ensure_group. rewrite dict_mem_get.
  destruct (Dict.get key g) as [grp|] eqn:Hkey.
  - destruct (Dict.get k g) eqn:Hk; [done|].
    destruct (String.eqb key k) eqn:E; [|done].
    apply String.eqb_eq in E as ->. congruence.
  - destruct (String.eqb key k) eqn:E.
    + apply String.eqb_eq in E as ->. by rewrite dict_get_set_eq, Hkey.
    + apply String.eqb_neq in E. rewrite dict_get_set_ne by done.
      by destruct (Dict.get k g).
Qed.

Lemma flagged_ensure k key description has_discount g :
  flagged k g -> flagged k (ensure_group key description has_discount g).
Proof.
  intros (grp & Hk & HY). exists grp. by rewrite get_ensure_group, Hk.
Qed.

Lemma flagged_update k key f g :
  (forall grp, pg_discount grp = "Y" -> pg_discount (f grp) = "Y") ->
  flagged k g -> flagged k (update_group key f g).
Proof.
  intros Hf (grp & Hk & HY). unfold flagged. rewrite get_update_group, Hk.
  cbn [fmap option_fmap option_map].
  destruct (String.eqb key k); eauto.
Qed.

Lemma append_amount_discount amount grp :
  pg_discount (append_amount amount grp) = pg_discount grp.
Proof. reflexivity. Qed.

Lemma mark_discount_keeps has_discount grp :
  pg_discount grp = "Y" -> pg_discount (mark_discount has_discount grp) = "Y".
Proof. unfold mark_discount. by destruct (String.eqb has_discount "Y"). Qed.

Lemma mark_discount_sets grp : pg_discount (mark_discount "Y" grp) = "Y".
Proof. reflexivity. Qed.

(** Marking the group of the key that has just been ensured flags it. *)
Lemma flagged_mark key g :
  Dict.mem key g = true ->
  flagged key (update_group key (mark_discount "Y") g).
Proof.
  rewrite dict_mem_get. destruct (Dict.get key g) as [grp|] eqn:Hk; [|done].
  intros _. exists (mark_discount "Y" grp).
  by rewrite get_update_group, String.eqb_refl, Hk.
Qed.

Lemma mem_ensure_group key description has_discount g :
  Dict.mem key (ensure_group key description has_discount g) = true.
Proof.
  rewrite dict_mem_get, get_ensure_group, String.eqb_refl.
  by destruct (Dict.get key g).
Qed.

Lemma mem_update_group k key f g :
  Dict.mem k (update_group key f g) = Dict.mem k g.
Proof.
  rewrite !dict_mem_get, get_update_group.
  destruct (String.eqb key k); by destruct (Dict.get k g).
Qed.

Lemma app_add_keeps k c g : flagged k g -> flagged k (app_add c g).
Proof.
  destruct c as [[[amount description] key] has_discount]. intros H.
  unfold app_add.
  apply flagged_update; [apply mark_discount_keeps|].
  apply flagged_update; [done|]. by apply flagged_ensure.
Qed.

Lemma app_add_flags amount description key g :
  flagged key (app_add (amount, description, key, "Y") g).
Proof.
  unfold app_add. apply flagged_mark.
  rewrite mem_update_group. apply mem_ensure_group.
Qed.

Lemma main_add_keeps k c g : flagged k g -> flagged k (main_add c g).
Proof.
  destruct c as [[[amount description] key] has_discount]. intros H.
  unfold main_add.
  apply flagged_update; [apply mark_discount_keeps|].
  destruct (_ || _).
  - apply flagged_update; [done|]. by apply flagged_ensure.
  - by apply flagged_ensure.
Qed.

Lemma main_add_flags amount description key g :
  flagged key (main_add (amount, description, key, "Y") g).
Proof.
  unfold main_add. apply flagged_mark.
  destruct (_ || _); rewrite ?mem_update_group; apply mem_ensure_group.
Qed.

(** The loop body of [main.py] is: find what the line brings, add it. *)
Lemma main_process_line_contribution line g :
  Main.process_line line g
  = let* c := main_contribution line in Ok (main_add c g).
Proof.
  destruct line; try reflexivity.
  unfold Main.process_line, main_contribution, main_line_amount,
    line_key, line_flag. cbn [Json.get Py.bind].
  destruct (Main.amount_of _) as [amount|e]; [|reflexivity]. cbn [Py.bind].
  destruct (base_product_of _) as [[description base]|e]; [|reflexivity].
  cbn [Py.bind]. destruct (has_discount_of _); reflexivity.
Qed.

(** A loop whose body keeps the flagged groups flagged, and flags the
    group of each line that is marked for it. *)
Section Loop.

Variable body : json -> Dict.t product_group -> result (Dict.t product_group).
Variable marks : json -> string -> Prop.

Hypothesis body_keeps : forall line g g' k,
  body line g = Ok g' -> flagged k g -> flagged k g'.
Hypothesis body_flags : forall line g g' k,
  body line g = Ok g' -> marks line k -> flagged k g'.

Lemma for_each_keeps lines : forall g g' k,
  Py.for_each body lines g = Ok g' -> flagged k g -> flagged k g'.
Proof.
  induction lines as [|l lines IH]; intros g g' k; cbn [Py.for_each].
  - by intros [= <-].
  - intros (g1 & H1 & H2)%bind_ok Hk. eauto.
Qed.

Lemma for_each_flags lines : forall g g' line k,
  Py.for_each body lines g = Ok g' ->
  line ∈ lines -> marks line k -> flagged k g'.
Proof.
  induction lines as [|l lines IH]; intros g g' line k; cbn [Py.for_each].
  - intros _ H. by apply elem_of_nil in H.
  - intros (g1 & H1 & H2)%bind_ok [->|Hin]%elem_of_cons Hm.
    + eapply for_each_keeps; eauto.
    + eauto.
Qed.

End Loop.

Lemma app_groups_flagged lines g line amount description key :
  Py.for_each App.process_line lines [] = Ok g ->
  line ∈ lines ->
  app_contribution line = Ok (Some (amount, description, key, "Y")) ->
  flagged key g.
Proof.
  intros Hloop Hin Hc.
  apply (for_each_flags App.process_line
           (fun line k => exists a d,
              app_contribution line = Ok (Some (a, d, k, "Y")))
           ) with (lines := lines) (g := []) (line := line); eauto.
  - intros l g0 g' k. rewrite app_process_line_contribution.
    intros (c & _ & [= <-])%bind_ok Hk.
    destruct c; [by apply app_add_keeps|done].
  - intros l g0 g' k. rewrite app_process_line_contribution.
    intros (c & Hc' & [= <-])%bind_ok (a & d & Hm).
    rewrite Hm in Hc'. injection Hc' as <-. apply app_add_flags.
Qed.

Lemma main_groups_flagged lines g line amount description key :
  Py.for_each Main.process_line lines [] = Ok g ->
  line ∈ lines ->
  main_contribution line = Ok (amount, description, key, "Y") ->
  flagged key g.
Proof.
  intros Hloop Hin Hc.
  apply (for_each_flags Main.process_line
           (fun line k => exists a d,
              main_contribution line = Ok (a, d, k, "Y"))
           ) with (lines := lines) (g := []) (line := line); eauto.
  - intros l g0 g' k. rewrite main_process_line_contribution.
    intros (c & _ & [= <-])%bind_ok Hk. by apply main_add_keeps.
  - intros l g0 g' k. rewrite main_process_line_contribution.
    intros (c & Hc' & [= <-])%bind_ok (a & d & Hm).
    rewrite Hm in Hc'. injection Hc' as <-. apply main_add_flags.
Qed.

End Groups.

(** C8 (as amended). For a line whose margins are a list of objects
    with a numeric percent, the discount flag is Y exactly when some
    margin has a percent above 0 or an amount other than 0, and N
    otherwise. In both extractors, after the loop over the lines, the
    product group of every line that was retained with the flag Y has
    the flag Y. *)
Theorem discount_flag_of_margins :
  (forall d margins,
     default (JList []) (Dict.get "margins" d) = JList margins ->
     forallb Spec.margin_ok margins = true ->
     (line_flag (JDict d) = Ok "Y" <->
      exists margin, margin ∈ margins /\ Spec.positive_margin margin = true) /\
     (line_flag (JDict d) = Ok "Y" \/ line_flag (JDict d) = Ok "N")) /\
  (forall lines product_groups line amount description key,
     Py.for_each App.process_line lines [] = Ok product_groups ->
     line ∈ lines ->
     app_contribution line = Ok (Some (amount, description, key, "Y")) ->
     exists g, Dict.get key product_groups = Some g /\ pg_discount g = "Y") /\
  (forall lines product_groups line amount description key,
     Py.for_each Main.process_line lines [] = Ok product_groups ->
     line ∈ lines ->
     main_contribution line = Ok (amount, description, key, "Y") ->
     exists g, Dict.get key product_groups = Some g /\ pg_discount g = "Y").
Proof.
  split; [|split].
  - intros d margins Hm Hok.
    assert (line_flag (JDict d)
            = Ok (if existsb Spec.positive_margin margins then "Y" else "N")) as ->.
    { unfold line_flag. cbn [Json.get Py.bind].
      replace (match Dict.get "margins" d with Some v => v | None => JList [] end)
        with (default (JList []) (Dict.get "margins" d))
        by (by destruct (Dict.get "margins" d)).
      rewrite Hm. by apply has_discount_of_ok. }
    split.
    + destruct (existsb Spec.positive_margin margins) eqn:E.
      * split; [intros _|done].
        apply existsb_exists in E as (m & Hin & Hpos).
        exists m. split; [by apply list_elem_of_In|done].
      * split; [discriminate|]. intros (m & Hin & Hpos).
        assert (existsb Spec.positive_margin margins = true) as E'.
        { apply existsb_exists. exists m. split; [by apply list_elem_of_In|done]. }
        congruence.
    + destruct (existsb Spec.positive_margin margins); auto.
  - intros. by eapply app_groups_flagged.
  - intros. by eapply main_groups_flagged.
Qed.

Lemma discount_flag_of_margins_witness :
  (line_flag
     (JDict [("description", JStr "Jira");
             ("margins", JList [JDict [("percent", JInt 0)];
                                JDict [("amount", JInt (-2000))]])])
   = Ok "Y" <->
   exists margin,
     margin ∈ [JDict [("percent", JInt 0)]; JDict [("amount", JInt (-2000))]] /\
     Spec.positive_margin margin = true) /\
  (exists g,
     Dict.get "Jira"
       [("Jira", ProductGroup "Jira (Annual)" [100%float; 5%float] "Y")]
     = Some g /\ pg_discount g = "Y").
Proof.
  split.
  - apply (proj1 discount_flag_of_margins
             [("description", JStr "Jira");
              ("margins", JList [JDict [("percent", JInt 0)];
                                 JDict [("amount", JInt (-2000))]])]);
      reflexivity.
  - apply (proj1 (proj2 discount_flag_of_margins)
             [JDict [("description", JStr "Jira (Annual)"); ("total", JInt 10000)];
              JDict [("description", JStr "Jira (Monthly)"); ("total", JInt 500);
                     ("margins", JList [JDict [("percent", JInt 20)]])]]
             [("Jira", ProductGroup "Jira (Annual)" [100%float; 5%float] "Y")]
             (JDict [("description", JStr "Jira (Monthly)"); ("total", JInt 500);
                     ("margins", JList [JDict [("percent", JInt 20)]])])
             5%float "Jira (Monthly)" "Jira").
    + vm_compute; reflexivity.
    + apply list_elem_of_further, list_elem_of_here.
    + vm_compute; reflexivity.
Defined.

(** A margin with a percent below 0 and no amount has a percent other
    than 0, and the flag is N. *)
Lemma negative_percent_is_no_discount :
  existsb Spec.nonzero_margin [JDict [("percent", JInt (-5))]] = true /\
  line_flag (JDict [("margins", JList [JDict [("percent", JInt (-5))]])]) = Ok "N" /\
  line_flag (JDict [("margins", JList [JDict [("percent", JInt (-5))]])]) <> Ok "Y" /\
  App.extract_from_data
    (JDict [("lines",
             JList [JDict [("description", JStr "Jira"); ("total", JInt 1000);
                           ("margins", JList [JDict [("percent", JInt (-5))]])]])])
  = Ok [Item "1" "Jira" 10 "N"].
Proof.
  split; [reflexivity|]. split; [reflexivity|]. split; [|vm_compute; reflexivity].
  vm_compute. discriminate.
Qed.

(** ** Failures of one document *)

Section AppBoundary.

Variable path_suffix : string -> string.
Variable decode_utf8 : string -> result string.
Variable json_loads : string -> result json.
Variable pdf_tables : string -> result (list (list (list (list cell)))).
Variable str_exn : exn -> string.

Let process := App.process_single_file path_suffix decode_utf8 json_loads
                 pdf_tables str_exn.

Lemma process_body_status file_content filename wb status message :
  App.process_body path_suffix decode_utf8 json_loads pdf_tables
    file_content filename = Ok (wb, status, message) ->
  status = "success" \/ status = "error" /\ wb = None.
Proof.
  unfold App.process_body.
  intros (data & Hdata & Hrest)%bind_ok.
  destruct data as [early|combined_data].
  - injection Hrest as ->. right.
    destruct (String.eqb _ "json").
    + apply bind_ok in Hdata as (json_content & _ & Hdata).
      apply bind_ok in Hdata as (table_data & _ & Hdata).
      destruct table_data; by simplify_eq.
    + destruct (App.extract_tables_from_pdf_content _ _); by simplify_eq.
  - apply bind_ok in Hrest as (excel_content & _ & [= <- <- <-]). by left.
Qed.

Lemma process_single_file_returns file_content filename :
  exists wb status message,
    process file_content filename = Ok (wb, status, message) /\
    (status = "success" \/ status = "error" /\ wb = None).
Proof.
  unfold process, App.process_single_file.
  destruct (App.process_body _ _ _ _ file_content filename)
    as [[[wb status] message]|e] eqn:E.
  - exists wb, status, message. split; [done|]. by eapply process_body_status.
  - eexists _, _, _. split; [reflexivity|]. by right.
Qed.

Lemma process_files_from uploaded_files : forall processed_files,
  exists outcomes,
    Py.for_each
      (fun f processed_files =>
         let* r := process (snd f) (fst f) in
         Ok (processed_files ++ [(fst f, r)])%list)
      uploaded_files processed_files
    = Ok (processed_files ++ outcomes)%list /\
    Forall2 (fun f o => fst o = fst f /\ process (snd f) (fst f) = Ok (snd o))
      uploaded_files outcomes.
Proof.
  induction uploaded_files as [|f files IH]; intros processed_files.
  - exists []. cbn. by rewrite app_nil_r.
  - cbn [Py.for_each].
    destruct (process_single_file_returns (snd f) (fst f))
      as (wb & status & message & Hf & _).
    rewrite Hf. cbn [Py.bind].
    destruct (IH (processed_files ++ [(fst f, (wb, status, message))])%list)
      as (outcomes & Heq & Hall).
    exists ((fst f, (wb, status, message)) :: outcomes).
    split; [|by constructor].
    etransitivity; [exact Heq|]. by rewrite <- app_assoc.
Qed.

Lemma malformed_json_is_empty json_content :
  json_loads json_content = Raise JSONDecodeError ->
  App.extract_from_json_content json_loads json_content = Ok [].
Proof. unfold App.extract_from_json_content. by intros ->. Qed.

Lemma malformed_json_outcome file_content filename json_content :
  App.detect_input_type_from_content path_suffix decode_utf8
    file_content filename = "json" ->
  decode_utf8 file_content = Ok json_content ->
  json_loads json_content = Raise JSONDecodeError ->
  process file_content filename = Ok (None, "error", "No data extracted from JSON").
Proof.
  intros Hd Hc Hj. unfold process, App.process_single_file, App.process_body.
  rewrite Hd, Hc. cbn [String.eqb Ascii.eqb Bool.eqb Py.bind].
  by rewrite (malformed_json_is_empty _ Hj).
Qed.

End AppBoundary.

Section MainBoundary.

Variable path_suffix : string -> string.
Variable read_text : string -> result string.
Variable json_load : string -> result json.
Variable pdf_tables : string -> result (list (list (list (list cell)))).

Let process := Main.process_pdf_to_excel path_suffix read_text json_load pdf_tables.

Lemma extract_from_json_raises json_path e :
  json_load json_path = Raise e ->
  Main.extract_from_json json_load json_path = Raise e.
Proof. unfold Main.extract_from_json. by intros ->. Qed.

Lemma process_document_json_raises input_path e :
  Main.detect_input_type path_suffix read_text input_path = "json" ->
  json_load input_path = Raise e ->
  Main.process_document_to_excel path_suffix read_text json_load pdf_tables
    input_path = Raise e.
Proof.
  intros Hd Hj. unfold Main.process_document_to_excel.
  rewrite Hd. cbn [String.eqb Ascii.eqb Bool.eqb].
  by rewrite (extract_from_json_raises _ _ Hj).
Qed.

(** The batch loop stops at the first file that raises. *)
Lemma batch_stops before : forall pdf_file after saved e,
  Forall (fun f => Py.is_ok (process ("quotes/" ++ f)) = true) before ->
  process ("quotes/" ++ pdf_file) = Raise e ->
  Py.for_each
    (fun pdf_file saved =>
       let* r := process ("quotes/" ++ pdf_file) in Ok (saved ++ [r])%list)
    (before ++ pdf_file :: after)%list saved
  = Raise e.
Proof.
  induction before as [|f before IH]; intros pdf_file after saved e Hok Hraise.
  - cbn [app Py.for_each]. by rewrite Hraise.
  - cbn [app Py.for_each]. apply Forall_cons in Hok as [Hf Hok].
    destruct (process ("quotes/" ++ f)) as [r|]; [|discriminate].
    cbn [Py.bind]. by apply IH.
Qed.

End MainBoundary.

(** C7 (as amended). In [app.py] [process_single_file] returns for every
    document a workbook, a status and a message, the status being
    "success", or "error" with no workbook; the loop over the uploaded
    files returns one outcome per file, that of the file alone; text that
    [json.loads] rejects gives an empty extraction and the outcome
    "error", "No data extracted from JSON". In [main.py] nothing is
    caught: what [json.load] raises leaves [extract_from_json] and
    [process_document_to_excel], and the batch loop ends with the first
    file that raises. *)
Theorem document_failures :
  (forall path_suffix decode_utf8 json_loads pdf_tables str_exn file_content filename,
     exists wb status message,
       App.process_single_file path_suffix decode_utf8 json_loads pdf_tables
         str_exn file_content filename = Ok (wb, status, message) /\
       (status = "success" \/ status = "error" /\ wb = None)) /\
  (forall path_suffix decode_utf8 json_loads pdf_tables str_exn uploaded_files,
     exists outcomes,
       App.process_files path_suffix decode_utf8 json_loads pdf_tables str_exn
         uploaded_files = Ok outcomes /\
       Forall2
         (fun f o =>
            fst o = fst f /\
            App.process_single_file path_suffix decode_utf8 json_loads pdf_tables
              str_exn (snd f) (fst f) = Ok (snd o))
         uploaded_files outcomes) /\
  (forall path_suffix decode_utf8 json_loads pdf_tables str_exn
          file_content filename json_content,
     App.detect_input_type_from_content path_suffix decode_utf8
       file_content filename = "json" ->
     decode_utf8 file_content = Ok json_content ->
     json_loads json_content = Raise JSONDecodeError ->
     App.extract_from_json_content json_loads json_content = Ok [] /\
     App.process_single_file path_suffix decode_utf8 json_loads pdf_tables
       str_exn file_content filename
     = Ok (None, "error", "No data extracted from JSON")) /\
  (forall path_suffix read_text json_load pdf_tables input_path e,
     Main.detect_input_type path_suffix read_text input_path = "json" ->
     json_load input_path = Raise e ->
     Main.extract_from_json json_load input_path = Raise e /\
     Main.process_document_to_excel path_suffix read_text json_load pdf_tables
       input_path = Raise e) /\
  (forall path_suffix read_text json_load pdf_tables listing before pdf_file after e,
     filter (fun f => Str.endswith ".pdf" (Str.lower f) = true) listing
     = (before ++ pdf_file :: after)%list ->
     Forall
       (fun f =>
          Py.is_ok (Main.process_pdf_to_excel path_suffix read_text json_load
                      pdf_tables ("quotes/" ++ f)) = true) before ->
     Main.process_pdf_to_excel path_suffix read_text json_load pdf_tables
       ("quotes/" ++ pdf_file) = Raise e ->
     Main.process_all path_suffix read_text json_load pdf_tables listing = Raise e).
Proof.
  split; [|split; [|split; [|split]]].
  - intros. apply process_single_file_returns.
  - intros. unfold App.process_files.
    destruct (process_files_from path_suffix decode_utf8 json_loads pdf_tables
                str_exn uploaded_files []) as (outcomes & H & Hall).
    exists outcomes. by split.
  - intros * Hd Hc Hj. split.
    + by apply malformed_json_is_empty.
    + by eapply malformed_json_outcome.
  - intros * Hd Hj. split.
    + by apply extract_from_json_raises.
    + by apply process_document_json_raises.
  - intros * Hfiles Hok Hraise. unfold Main.process_all.
    rewrite Hfiles. by apply batch_stops.
Qed.

Lemma document_failures_witness :
  (App.extract_from_json_content Example.json_loads "{lines: [" = Ok [] /\
   App.process_single_file Example.path_suffix Example.decode_utf8
     Example.json_loads Example.pdf_tables Example.str_exn
     "{lines: [" "quote.json"
   = Ok (None, "error", "No data extracted from JSON")) /\
  (Main.extract_from_json Example.json_load "quote.json" = Raise JSONDecodeError /\
   Main.process_document_to_excel Example.path_suffix Example.read_text
     Example.json_load Example.pdf_tables "quote.json"
   = Raise JSONDecodeError) /\
  Main.process_all Example.path_suffix Example.read_text Example.json_load
    Example.pdf_tables ["good.pdf"; "notes.txt"; "bad.pdf"; "other.pdf"]
  = Raise PDFSyntaxError.
Proof.
  split; [|split].
  - apply (proj1 (proj2 (proj2 document_failures))
             Example.path_suffix Example.decode_utf8 Example.json_loads
             Example.pdf_tables Example.str_exn "{lines: [" "quote.json"
             "{lines: ["); reflexivity.
  - apply (proj1 (proj2 (proj2 (proj2 document_failures)))
             Example.path_suffix Example.read_text Example.json_load
             Example.pdf_tables "quote.json" JSONDecodeError); reflexivity.
  - apply (proj2 (proj2 (proj2 (proj2 document_failures)))
             Example.path_suffix Example.read_text Example.json_load
             Example.pdf_tables ["good.pdf"; "notes.txt"; "bad.pdf"; "other.pdf"]
             ["good.pdf"] "bad.pdf" ["other.pdf"] PDFSyntaxError).
    + vm_compute; reflexivity.
    + repeat constructor.
    + vm_compute; reflexivity.
Defined.

(** In [main.py] a file that is no PDF ends the batch, and the files
    after it are not processed; text that is no JSON makes
    [extract_from_json] raise and gives no empty result. *)
Lemma main_batch_aborts :
  Py.is_ok (Main.process_all Example.path_suffix Example.read_text
              Example.json_load Example.pdf_tables ["good.pdf"]) = true /\
  Main.process_all Example.path_suffix Example.read_text Example.json_load
    Example.pdf_tables ["bad.pdf"; "good.pdf"]
  = Raise PDFSyntaxError /\
  Main.extract_from_json Example.json_load "quote.json" = Raise JSONDecodeError /\
  Main.extract_from_json Example.json_load "quote.json" <> Ok [].
Proof.
  split; [vm_compute; reflexivity|]. split; [vm_compute; reflexivity|].
  split; [reflexivity|]. vm_compute. discriminate.
Qed.

(** * Further properties of the code *)

(** ** Dictionaries: keys and values under [set] *)

Section DictShape.

Context {V : Type}.
Implicit Types (d : Dict.t V) (k : string) (v : V).

Lemma dict_get_None_keys k d : Dict.get k d = None <-> k ∉ Dict.keys d.
Proof.
  induction d as [|[k' v'] d IH]; simpl.
  - split; [intros _; apply not_elem_of_nil|done].
  - rewrite not_elem_of_cons. destruct (String.eqb k k') eqn:E.
    + apply String.eqb_eq in E. split; [done|]. by intros [? _].
    + apply String.eqb_neq in E. rewrite IH. tauto.
Qed.

Lemma dict_set_new k v d :
  Dict.get k d = None -> Dict.set k v d = (d ++ [(k, v)])%list.
Proof.
  induction d as [|[k' v'] d IH]; simpl; [done|].
  destruct (String.eqb k k'); [done|]. intros H. by rewrite IH.
Qed.

Lemma dict_keys_set_old k v v0 d :
  Dict.get k d = Some v0 -> Dict.keys (Dict.set k v d) = Dict.keys d.
Proof.
  induction d as [|[k' v'] d IH]; simpl; [done|].
  destruct (String.eqb k k') eqn:E.
  - apply String.eqb_eq in E as ->. done.
  - intros H. simpl. f_equal. by apply IH.
Qed.

Lemma dict_set_last k v v0 d :
  Dict.get k d = None ->
  Dict.set k v (d ++ [(k, v0)])%list = (d ++ [(k, v)])%list.
Proof.
  induction d as [|[k' v'] d IH]; simpl.
  - by rewrite String.eqb_refl.
  - destruct (String.eqb k k'); [done|]. intros H. by rewrite IH.
Qed.

End DictShape.

(** ** The grouper: nothing lost, nothing twice *)

Section GrouperShape.

(** The values of a dictionary one after the other, when the value of
    one key gets one more element. *)
Lemma concat_set_snoc {A} k (l : list A) x (d : Dict.t (list A)) :
  Dict.get k d = Some l ->
  concat (map snd (Dict.set k (l ++ [x])%list d)) ≡ₚ x :: concat (map snd d).
Proof.
  induction d as [|[k' v'] d IH]; simpl; [done|].
  destruct (String.eqb k k') eqn:E.
  - intros [= ->]. simpl. rewrite <- app_assoc. simpl.
    by rewrite <- Permutation_middle.
  - intros H. simpl. rewrite (IH H). by rewrite <- Permutation_middle.
Qed.

Lemma forall_set_old {A} (P : A -> Prop) k v v0 (d : Dict.t A) :
  Dict.get k d = Some v0 -> P v ->
  Forall (fun kv => P (snd kv)) d ->
  Forall (fun kv => P (snd kv)) (Dict.set k v d).
Proof.
  induction d as [|[k' v'] d IH]; simpl; [done|].
  destruct (String.eqb k k'); intros H Hv Hd; inversion_clear Hd;
    constructor; auto.
Qed.

Lemma group_step_shape grouped current_sno it :
  well_grouped grouped ->
  well_grouped (fst (group_step (grouped, current_sno) it)) /\
  concat (map snd (fst (group_step (grouped, current_sno) it)))
    ≡ₚ it :: concat (map snd grouped).
Proof.
  intros [Hnd Hne]. unfold group_step.
  destruct (match current_sno with Some cur => _ | None => _ end) as [k cur'].
  rewrite dict_mem_get.
  destruct (Dict.get k grouped) as [l|] eqn:Hk.
  - rewrite Hk. cbn [fst]. split; [split|].
    + by rewrite (dict_keys_set_old _ _ l).
    + apply (forall_set_old (fun l => l <> []) k _ l); [done| |done].
      by destruct l.
    + by apply concat_set_snoc.
  - rewrite dict_get_set_eq. cbn [fst app].
    rewrite (dict_set_new k [] grouped Hk).
    rewrite (dict_set_last k [it] [] grouped Hk).
    split; [split|].
    + unfold Dict.keys. rewrite map_app. simpl.
      apply NoDup_app. split; [done|]. split; [|apply NoDup_singleton].
      intros x Hx ->%list_elem_of_singleton.
      by apply dict_get_None_keys in Hk.
    + apply Forall_app. split; [done|]. by repeat constructor.
    + rewrite map_app, concat_app. simpl.
      by rewrite <- Permutation_cons_append.
Qed.

Lemma fold_group_step_shape items : forall grouped current_sno,
  well_grouped grouped ->
  well_grouped (fst (fold_left group_step items (grouped, current_sno))) /\
  concat (map snd (fst (fold_left group_step items (grouped, current_sno))))
    ≡ₚ (concat (map snd grouped) ++ items)%list.
Proof.
  induction items as [|it items IH]; intros grouped current_sno Hg.
  - simpl. by rewrite app_nil_r.
  - cbn [fold_left].
    destruct (group_step_shape grouped current_sno it Hg) as [Hg' Hp].
    destruct (group_step (grouped, current_sno) it) as [g' cur'].
    destruct (IH g' cur' Hg') as [Hg'' Hp'']. split; [done|].
    rewrite Hp''. cbn [fst] in Hp. rewrite Hp.
    by rewrite <- Permutation_middle.
Qed.

End GrouperShape.

(** X1. The groups of [group_by_sno] have distinct keys, none of them is
    empty, and together they hold every item of the input once. *)
Theorem group_by_sno_partition items :
  NoDup (Dict.keys (group_by_sno items)) /\
  Forall (fun kv => snd kv <> []) (group_by_sno items) /\
  concat (map snd (group_by_sno items)) ≡ₚ items.
Proof.
  destruct (fold_group_step_shape items [] None) as [[Hnd Hne] Hp].
  { split; [apply NoDup_nil_2|constructor]. }
  unfold group_by_sno. by repeat split.
Qed.

(** ** The formatter adds line breaks and nothing else *)

Lemma remove_newline_insert_breaks s :
  Str.remove_char Str.newline (Spec.insert_breaks s)
  = Str.remove_char Str.newline s.
Proof.
  induction s as [|c s IH]; [done|].
  cbn [Spec.insert_breaks].
  destruct (Spec.label_here (String c s)); cbn [Str.remove_char];
    rewrite ?Ascii.eqb_refl; cbn [Str.remove_char]; by rewrite IH.
Qed.

(** X2. Taking the line breaks out of a formatted product text gives the
    same as taking them out of the text itself: the formatter changes no
    other character and keeps the order. *)
Theorem format_product_text_only_breaks s :
  Str.remove_char Str.newline (format_product_text s)
  = Str.remove_char Str.newline s.
Proof. rewrite format_is_insert_breaks. apply remove_newline_insert_breaks. Qed.

(** ** Row numbers as text *)

Section RowNumbers.

Lemma of_nat_unfold n : Str.of_nat n = NilEmpty.string_of_uint (Nat.to_uint n).
Proof.
  unfold Str.of_nat, NilZero.string_of_uint.
  pose proof (to_uint_nonnil n). by destruct (Nat.to_uint n).
Qed.

Lemma string_of_uint_digits d :
  all_chars Str.is_digit (NilEmpty.string_of_uint d) = true.
Proof. induction d; simpl; auto. Qed.

Lemma string_of_uint_truthy d :
  d <> Decimal.Nil -> Str.truthy (NilEmpty.string_of_uint d) = true.
Proof. by destruct d. Qed.

Lemma of_nat_truthy n : Str.truthy (Str.of_nat n) = true.
Proof. rewrite of_nat_unfold. apply string_of_uint_truthy, to_uint_nonnil. Qed.

Lemma fold_digits_uint d : forall acc,
  fold_left (fun a c => 10 * a + Str.digit_val c)
    (list_ascii_of_string (NilEmpty.string_of_uint d)) (Z.of_nat acc)
  = Z.of_nat (Nat.of_uint_acc d acc).
Proof.
  induction d; intros acc; cbn [NilEmpty.string_of_uint list_ascii_of_string
    fold_left Nat.of_uint_acc]; [done|..];
    rewrite <- IHd; f_equal; rewrite Nat.tail_mul_spec;
    unfold Str.digit_val, Str.code; cbn [N_of_ascii N_of_digits]; lia.
Qed.

Lemma all_chars_impl (p q : ascii -> bool) s :
  (forall c, p c = true -> q c = true) ->
  all_chars p s = true -> all_chars q s = true.
Proof.
  intros Hpq. induction s as [|c s IH]; [done|].
  cbn [all_chars]. intros [Hc Hs]%andb_true_iff.
  by rewrite (Hpq c Hc), IH.
Qed.

(** [int(str(n))] is [n], and [str(n)] passes [isdigit]. *)
Lemma sort_key_of_nat n : sort_key (Str.of_nat n) = Ok (Z.of_nat n).
Proof.
  unfold sort_key, isdigit, int_of_digits.
  rewrite of_nat_truthy. cbn [andb].
  assert (all_chars Str.is_digit (Str.of_nat n) = true) as Hd
    by (rewrite of_nat_unfold; apply string_of_uint_digits).
  assert (all_chars isdigit_char (Str.of_nat n) = true) as ->.
  { apply (all_chars_impl Str.is_digit); [|done].
    intros c Hc. unfold isdigit_char. by rewrite Hc. }
  rewrite Hd. f_equal. rewrite of_nat_unfold.
  etransitivity; [exact (fold_digits_uint (Nat.to_uint n) 0)|].
  change (Nat.of_uint_acc (Nat.to_uint n) 0) with (Nat.of_uint (Nat.to_uint n)).
  by rewrite DecimalNat.Unsigned.of_to.
Qed.

End RowNumbers.

(** ** From product groups to sheet groups *)

Section Flatten.

Lemma dict_get_app_last {V} k (v : V) (d : Dict.t V) :
  Dict.get k d = None -> Dict.get k (d ++ [(k, v)])%list = Some v.
Proof.
  induction d as [|[k' v'] d IH]; simpl.
  - by rewrite String.eqb_refl.
  - destruct (String.eqb k k'); [done|auto].
Qed.

Lemma dict_get_app_other {V} k k' (v : V) (d : Dict.t V) :
  k <> k' -> Dict.get k (d ++ [(k', v)])%list = Dict.get k d.
Proof.
  intros Hne. induction d as [|[k0 v0] d IH]; simpl.
  - by apply String.eqb_neq in Hne; rewrite Hne.
  - by destruct (String.eqb k k0).
Qed.

(** A row with a number opens a group of its own at the end. *)
Lemma group_step_head grouped current_sno it :
  Str.truthy (sno it) = true ->
  Dict.get (sno it) grouped = None ->
  group_step (grouped, current_sno) it
  = ((grouped ++ [(sno it, [it])])%list, Some (sno it)).
Proof.
  intros Ht Hnew. unfold group_step.
  assert (match current_sno with
          | Some cur =>
              if negb (Str.truthy (sno it)) && Str.truthy cur
              then (cur, current_sno) else (sno it, Some (sno it))
          | None => (sno it, Some (sno it))
          end = (sno it, Some (sno it))) as ->.
  { destruct current_sno; by rewrite ?Ht. }
  rewrite dict_mem_get, Hnew, dict_get_set_eq.
  by rewrite (dict_set_new _ _ _ Hnew), (dict_set_last _ _ _ _ Hnew).
Qed.

(** The rows without a number that follow go to the same group. *)
Lemma fold_group_step_continuations amounts : forall grouped k l,
  Str.truthy k = true ->
  Dict.get k grouped = None ->
  fold_left group_step (map (fun amount => Item "" "" amount "N") amounts)
    ((grouped ++ [(k, l)])%list, Some k)
  = ((grouped ++ [(k, (l ++ map (fun amount => Item "" "" amount "N") amounts)%list)])%list,
     Some k).
Proof.
  induction amounts as [|a amounts IH]; intros grouped k l Hk Hnew.
  - simpl. by rewrite app_nil_r.
  - cbn [map fold_left]. unfold group_step at 2. cbn [sno Str.truthy negb andb].
    rewrite Hk. rewrite dict_mem_get, (dict_get_app_last _ _ _ Hnew).
    rewrite (dict_get_app_last _ _ _ Hnew).
    rewrite (dict_set_last _ _ _ _ Hnew), (IH _ _ _ Hk Hnew).
    by rewrite <- app_assoc.
Qed.

Lemma fold_group_step_table product_groups : forall i grouped current_sno,
  (forall j, (i <= j)%nat -> Dict.get (Str.of_nat j) grouped = None) ->
  fst (fold_left group_step
         (concat (map (fun ig => group_items (fst ig) (snd (snd ig)))
                    (enumerate i product_groups)))
         (grouped, current_sno))
  = (grouped ++ numbered_groups i product_groups)%list.
Proof.
  unfold numbered_groups.
  induction product_groups as [|[key g] pgs IH]; intros i grouped current_sno Hnew.
  - simpl. by rewrite app_nil_r.
  - cbn [enumerate map concat fst snd]. unfold group_items at 1.
    cbn [app fold_left].
    rewrite group_step_head; cbn [sno];
      [|apply of_nat_truthy|by apply Hnew].
    rewrite fold_left_app.
    rewrite fold_group_step_continuations;
      [|apply of_nat_truthy|by apply Hnew].
    rewrite IH.
    + rewrite <- app_assoc. reflexivity.
    + intros j Hj. rewrite dict_get_app_other; [apply Hnew; lia|].
      intros Heq%of_nat_inj. lia.
Qed.






End Flatten.

(** The rows of the product groups, grouped. *)
Lemma regroup_table_data product_groups :
  group_by_sno (to_table_data product_groups) = numbered_groups 1 product_groups.
Proof.
  exact (fold_group_step_table product_groups 1 [] None (fun _ _ => eq_refl)).
Qed.


(** X3. The grouper undoes the flattening of the JSON extractors: the
    rows of the product groups are grouped back into one group per
    product group, numbered 1, 2, ... in the order of the product
    groups, each with its head row and its continuation rows. *)
Theorem group_by_sno_of_table_data product_groups :
  group_by_sno (to_table_data product_groups) = numbered_groups 1 product_groups.
Proof. apply regroup_table_data. Qed.


(** ** The product groups of the JSON extractors *)

Section ProductGroups.

Implicit Types (pgs : Dict.t product_group) (k key : string).

Lemma keys_update_group key f pgs :
  Dict.keys (update_group key f pgs) = Dict.keys pgs.
Proof.
  unfold update_group. destruct (Dict.get key pgs) as [g|] eqn:E; [|done].
  by apply (dict_keys_set_old _ _ g).
Qed.

Lemma nodup_ensure_group key description has_discount pgs :
  NoDup (Dict.keys pgs) ->
  NoDup (Dict.keys (ensure_group key description has_discount pgs)).
Proof.
  intros Hnd. unfold ensure_group. rewrite dict_mem_get.
  destruct (Dict.get key pgs) eqn:E; [done|].
  rewrite (dict_set_new _ _ _ E). unfold Dict.keys. rewrite map_app.
  apply NoDup_app. split; [done|]. split; [|apply NoDup_singleton].
  intros x Hx ->%list_elem_of_singleton. by apply dict_get_None_keys in E.
Qed.

Lemma dict_get_elem {V} k (v : V) (d : Dict.t V) :
  NoDup (Dict.keys d) -> (k, v) ∈ d -> Dict.get k d = Some v.
Proof.
  induction d as [|[k' v'] d IH]; simpl.
  - intros _ H. by apply elem_of_nil in H.
  - intros [Hk' Hnd]%NoDup_cons [[= -> ->]|Hin]%elem_of_cons.
    + by rewrite String.eqb_refl.
    + destruct (String.eqb k k') eqn:E; [|auto].
      apply String.eqb_eq in E as ->. destruct Hk'.
      apply list_elem_of_fmap. by exists (k', v).
Qed.

(** The amounts when one group gets the amounts [extra] at its end. *)
Lemma all_amounts_update key f extra pgs :
  (forall g, pg_amounts (f g) = (pg_amounts g ++ extra)%list) ->
  Dict.mem key pgs = true ->
  all_amounts (update_group key f pgs) ≡ₚ (extra ++ all_amounts pgs)%list.
Proof.
  intros Hf. unfold update_group, all_amounts. rewrite dict_mem_get.
  destruct (Dict.get key pgs) as [g0|] eqn:E; [intros _|done].
  revert E. induction pgs as [|[k' g'] pgs IH]; simpl; [done|].
  destruct (String.eqb key k') eqn:Ek.
  - intros [= ->]. simpl. rewrite Hf, <- app_assoc.
    by rewrite (Permutation_app_swap_app extra).
  - intros H. simpl. rewrite (IH H).
    by rewrite (Permutation_app_swap_app extra).
Qed.

Lemma all_amounts_same key f pgs :
  (forall g, pg_amounts (f g) = pg_amounts g) ->
  all_amounts (update_group key f pgs) = all_amounts pgs.
Proof.
  intros Hf. unfold update_group, all_amounts.
  destruct (Dict.get key pgs) as [g0|] eqn:E; [|done].
  revert E. induction pgs as [|[k' g'] pgs IH]; simpl; [done|].
  destruct (String.eqb key k').
  - intros [= ->]. simpl. by rewrite Hf.
  - intros H. simpl. by rewrite (IH H).
Qed.

Lemma all_amounts_ensure key description has_discount pgs :
  all_amounts (ensure_group key description has_discount pgs) = all_amounts pgs.
Proof.
  unfold ensure_group. rewrite dict_mem_get.
  destruct (Dict.get key pgs) eqn:E; [done|].
  rewrite (dict_set_new _ _ _ E). unfold all_amounts.
  rewrite map_app, concat_app. simpl. by rewrite app_nil_r.
Qed.

Lemma mark_discount_amounts has_discount g :
  pg_amounts (mark_discount has_discount g) = pg_amounts g.
Proof. unfold mark_discount. by destruct (String.eqb has_discount "Y"). Qed.

Lemma appended_nonempty has_discount amount g :
  pg_amounts (mark_discount has_discount (append_amount amount g)) <> [].
Proof.
  rewrite mark_discount_amounts. unfold append_amount. cbn [pg_amounts].
  by destruct (pg_amounts g).
Qed.

(** One contribution in [app.py]. *)
Lemma app_add_well_formed c pgs :
  well_formed_groups pgs -> well_formed_groups (app_add c pgs).
Proof.
  destruct c as [[[amount description] key] has_discount].
  intros [Hnd Hne]. unfold app_add. split.
  - rewrite !keys_update_group. by apply nodup_ensure_group.
  - intros k g. rewrite !get_update_group, get_ensure_group.
    destruct (String.eqb key k) eqn:E.
    + destruct (Dict.get k pgs) as [g0|] eqn:Hk; cbn; intros [= <-];
        apply appended_nonempty.
    + destruct (Dict.get k pgs) as [g0|] eqn:Hk; [|done].
      intros [= <-]. eauto.
Qed.

Lemma app_add_amounts amount description key has_discount pgs :
  all_amounts (app_add (amount, description, key, has_discount) pgs)
  ≡ₚ amount :: all_amounts pgs.
Proof.
  unfold app_add.
  rewrite all_amounts_same by apply mark_discount_amounts.
  rewrite (all_amounts_update key (append_amount amount) [amount]);
    [|done|apply mem_ensure_group].
  by rewrite all_amounts_ensure.
Qed.

(** One contribution in [main.py]. *)
Lemma main_add_well_formed c pgs :
  well_formed_groups pgs -> well_formed_groups (main_add c pgs).
Proof.
  destruct c as [[[amount description] key] has_discount].
  intros [Hnd Hne]. unfold main_add.
  set (pgs1 := ensure_group key description has_discount pgs).
  assert (NoDup (Dict.keys pgs1)) as Hnd1 by by apply nodup_ensure_group.
  destruct (Dict.get key pgs1) as [g1|] eqn:H1.
  2:{ pose proof (mem_ensure_group key description has_discount pgs) as Hm.
      fold pgs1 in Hm. rewrite dict_mem_get, H1 in Hm. done. }
  split.
  - rewrite keys_update_group. destruct (_ || _); by rewrite ?keys_update_group.
  - intros k g. rewrite get_update_group.
    assert (forall g', Dict.get k pgs1 = Some g' ->
                       k <> key -> pg_amounts g' <> []) as Hother.
    { intros g' Hg' Hk. subst pgs1. rewrite get_ensure_group in Hg'.
      destruct (Dict.get k pgs) eqn:Hkp.
      - injection Hg' as <-. eauto.
      - destruct (String.eqb key k) eqn:E; [|done].
        by apply String.eqb_eq in E. }
    destruct (PyFloat.nonzero amount || _) eqn:Hc.
    + rewrite get_update_group. destruct (String.eqb key k) eqn:E.
      * apply String.eqb_eq in E as <-. rewrite H1. cbn. intros [= <-].
        apply appended_nonempty.
      * intros Hg. apply (Hother g Hg). intros ->.
        by rewrite String.eqb_refl in E.
    + apply orb_false_iff in Hc as [_ Hlen].
      destruct (String.eqb key k) eqn:E.
      * apply String.eqb_eq in E as <-. rewrite H1. cbn. intros [= <-].
        rewrite mark_discount_amounts. apply Nat.eqb_neq in Hlen.
        by destruct (pg_amounts g1).
      * intros Hg. apply (Hother g Hg). intros ->.
        by rewrite String.eqb_refl in E.
Qed.

(** The rows of the product groups carry their amounts, one after the
    other. *)
Lemma table_data_amounts pgs : forall i,
  (forall k g, (k, g) ∈ pgs -> pg_amounts g <> []) ->
  map amount_excl_tax
    (concat (map (fun ig => group_items (fst ig) (snd (snd ig))) (enumerate i pgs)))
  = all_amounts pgs.
Proof.
  unfold all_amounts.
  induction pgs as [|[k g] pgs IH]; intros i Hne; [done|].
  cbn [enumerate map concat fst snd]. rewrite map_app. f_equal.
  - unfold group_items. cbn [map amount_excl_tax].
    rewrite map_map. cbn [amount_excl_tax]. rewrite map_id.
    pose proof (Hne k g (list_elem_of_here _ _)). by destruct (pg_amounts g).
  - apply IH. intros k' g' Hin. eapply Hne. by apply list_elem_of_further.
Qed.

Lemma well_formed_table_data pgs :
  well_formed_groups pgs ->
  map amount_excl_tax (to_table_data pgs) = all_amounts pgs.
Proof.
  intros [Hnd Hne]. apply table_data_amounts.
  intros k g Hin. apply (Hne k). by apply dict_get_elem.
Qed.

Lemma app_retained_cons line lines :
  app_retained_amounts (line :: lines)
  = match app_contribution line with
    | Ok (Some (amount, _, _, _)) => amount :: app_retained_amounts lines
    | _ => app_retained_amounts lines
    end.
Proof.
  unfold app_retained_amounts. simpl.
  by destruct (app_contribution line) as [[[[[? ?] ?] ?]|]|].
Qed.

Lemma app_loop_groups lines : forall pgs pgs',
  well_formed_groups pgs ->
  Py.for_each App.process_line lines pgs = Ok pgs' ->
  well_formed_groups pgs' /\
  all_amounts pgs' ≡ₚ (all_amounts pgs ++ app_retained_amounts lines)%list.
Proof.
  induction lines as [|line lines IH]; intros pgs pgs' Hwf; cbn [Py.for_each].
  - intros [= <-]. split; [done|]. by rewrite app_nil_r.
  - rewrite app_process_line_contribution.
    intros (pgs1 & (c & Hc & [= <-])%bind_ok & Hrest)%bind_ok.
    rewrite app_retained_cons, Hc.
    destruct c as [[[[amount description] key] has_discount]|].
    + destruct (IH _ _ (app_add_well_formed _ _ Hwf) Hrest) as [Hwf' Hp].
      split; [done|]. rewrite Hp, app_add_amounts. cbn.
      by rewrite <- Permutation_middle.
    + by apply IH.
Qed.

Lemma main_loop_groups lines : forall pgs pgs',
  well_formed_groups pgs ->
  Py.for_each Main.process_line lines pgs = Ok pgs' ->
  well_formed_groups pgs'.
Proof.
  induction lines as [|line lines IH]; intros pgs pgs' Hwf; cbn [Py.for_each].
  - by intros [= <-].
  - rewrite main_process_line_contribution.
    intros (pgs1 & (c & Hc & [= <-])%bind_ok & Hrest)%bind_ok.
    eapply IH; [|exact Hrest]. by apply main_add_well_formed.
Qed.

Lemma well_formed_empty : well_formed_groups [].
Proof. split; [apply NoDup_nil_2|done]. Qed.

End ProductGroups.

(** X5. In [app.py], when the loop over the lines goes through, the
    product groups have distinct keys and at least one amount each; the
    rows made of them carry exactly the amounts of the groups, in their
    order; and these are the amounts of the retained lines, each one
    once. *)
Theorem app_amounts_conserved lines product_groups :
  Py.for_each App.process_line lines [] = Ok product_groups ->
  well_formed_groups product_groups /\
  map amount_excl_tax (to_table_data product_groups) = all_amounts product_groups /\
  all_amounts product_groups ≡ₚ app_retained_amounts lines.
Proof.
  intros Hloop.
  destruct (app_loop_groups lines [] product_groups well_formed_empty Hloop)
    as [Hwf Hp].
  split; [done|]. split; [by apply well_formed_table_data|done].
Qed.

Lemma app_amounts_conserved_witness :
  map amount_excl_tax
    (to_table_data
       [("Jira", ProductGroup "Jira (Annual)" [100%float; (-5)%float] "N")])
  = [100%float; (-5)%float].
Proof.
  apply (proj1 (proj2 (app_amounts_conserved
           [JDict [("description", JStr "Jira (Annual)"); ("total", JInt 10000)];
            JDict [("description", JStr "Free"); ("total", JInt 0)];
            JDict [("description", JStr "Jira (Credit)"); ("total", JInt (-500))]]
           [("Jira", ProductGroup "Jira (Annual)" [100%float; (-5)%float] "N")]
           ltac:(vm_compute; reflexivity)))).
Defined.

(** X6. In [main.py], when the loop over the lines goes through, the
    product groups have distinct keys and at least one amount each, and
    the rows made of them carry exactly the amounts of the groups: the
    fallback amount 0.0 of an empty group is never used. *)
Theorem main_groups_have_amounts lines product_groups :
  Py.for_each Main.process_line lines [] = Ok product_groups ->
  well_formed_groups product_groups /\
  map amount_excl_tax (to_table_data product_groups) = all_amounts product_groups.
Proof.
  intros Hloop.
  pose proof (main_loop_groups lines [] product_groups well_formed_empty Hloop).
  split; [done|]. by apply well_formed_table_data.
Qed.

Lemma main_groups_have_amounts_witness :
  map amount_excl_tax
    (to_table_data
       [("Jira", ProductGroup "Jira (Annual)" [0%float; 100%float] "N")])
  = [0%float; 100%float].
Proof.
  apply (proj2 (main_groups_have_amounts
           [JDict [("description", JStr "Jira (Annual)"); ("total", JInt 0)];
            JDict [("description", JStr "Jira (Free)"); ("total", JInt 0)];
            JDict [("description", JStr "Jira (Monthly)"); ("total", JInt 10000)]]
           [("Jira", ProductGroup "Jira (Annual)" [0%float; 100%float] "N")]
           ltac:(vm_compute; reflexivity))).
Defined.

(** ** The cells of the rendered rows *)

Section RenderedCells.

Import Spec.








End RenderedCells.



(** ** The order of the rows *)

Section RowOrder.

Implicit Types (l : list (Z * string)) (x : Z * string).

Lemma insert_by_key_perm x l : insert_by_key x l ≡ₚ x :: l.
Proof.
  induction l as [|y l IH]; [done|]. cbn [insert_by_key].
  destruct (fst x <=? fst y); [done|]. by rewrite IH, Permutation_swap.
Qed.

Lemma sort_by_key_perm l : sort_by_key l ≡ₚ l.
Proof.
  induction l as [|x l IH]; [done|].
  cbn [sort_by_key fold_right]. fold (sort_by_key l).
  by rewrite insert_by_key_perm, IH.
Qed.

Lemma insert_by_key_sorted x l :
  StronglySorted (fun a b => fst a <= fst b) l ->
  StronglySorted (fun a b => fst a <= fst b) (insert_by_key x l).
Proof.
  induction 1 as [|y l Hl IH Hy]; cbn [insert_by_key].
  - repeat constructor.
  - destruct (Z.leb_spec (fst x) (fst y)).
    + constructor; [by constructor|]. constructor; [done|].
      eapply Forall_impl; [exact Hy|]. intros z Hz. simpl in Hz. lia.
    + constructor; [done|]. rewrite insert_by_key_perm.
      constructor; [lia|done].
Qed.

Lemma sort_by_key_sorted l :
  StronglySorted (fun a b => fst a <= fst b) (sort_by_key l).
Proof.
  induction l as [|x l IH]; [constructor|].
  cbn [sort_by_key fold_right]. by apply insert_by_key_sorted.
Qed.

(** Insertion leaves the elements of one rank in their order. *)
Lemma insert_by_key_filter z x l :
  filter (fun p => fst p = z) (insert_by_key x l)
  = filter (fun p => fst p = z) (x :: l).
Proof.
  induction l as [|y l IH]; [done|]. cbn [insert_by_key].
  destruct (Z.leb_spec (fst x) (fst y)); [done|].
  rewrite filter_cons, IH, !filter_cons.
  destruct (decide (fst y = z)), (decide (fst x = z)); try done. lia.
Qed.

Lemma sort_by_key_filter z l :
  filter (fun p => fst p = z) (sort_by_key l) = filter (fun p => fst p = z) l.
Proof.
  induction l as [|x l IH]; [done|].
  cbn [sort_by_key fold_right]. fold (sort_by_key l).
  by rewrite insert_by_key_filter, !filter_cons, IH.
Qed.

Lemma with_keys_ok keys kx :
  with_keys keys = Ok kx -> kx = map (fun key : string => (rank key, key)) keys.
Proof.
  revert kx. induction keys as [|x keys IH]; intros kx; cbn [with_keys].
  - by intros [= <-].
  - intros (k & Hk & (r & Hr & [= <-])%bind_ok)%bind_ok.
    cbn [map]. unfold rank at 1. rewrite Hk. f_equal. by apply IH.
Qed.




Lemma filter_map_rank z keys :
  filter (fun k => rank k = z) keys
  = map snd (filter (fun p : Z * string => fst p = z)
               (map (fun key : string => (rank key, key)) keys)).
Proof.
  induction keys as [|x keys IH]; [done|].
  cbn [map]. rewrite !filter_cons. cbn [fst].
  destruct (decide (rank x = z)); cbn [map snd]; by rewrite IH.
Qed.

Lemma filter_rank_snd z l :
  Forall (fun p => fst p = rank (snd p)) l ->
  filter (fun k => rank k = z) (map snd l)
  = map snd (filter (fun p : Z * string => fst p = z) l).
Proof.
  induction 1 as [|p l Hp Hl IH]; [done|].
  cbn [map]. rewrite !filter_cons, <- Hp.
  destruct (decide (fst p = z)); cbn [map]; by rewrite IH.
Qed.

End RowOrder.

(** X8. When the keys can be ranked, the renderer's order is a
    rearrangement of the keys in which the ranks never go down, and the
    keys of one rank stay in their order of insertion (the sort is
    stable); the rank is 999 for every key that is no run of digits, and
    n for the text of a number n (of at most 4300 digits, the most that
    [int] and [str] convert in every version of Python). *)
Theorem sorted_keys_stable keys ks :
  sorted_keys keys = Ok ks ->
  ks ≡ₚ keys /\
  StronglySorted (fun a b => rank a <= rank b) ks /\
  (forall z, filter (fun k => rank k = z) ks = filter (fun k => rank k = z) keys) /\
  (forall k, isdigit k = false -> rank k = 999) /\
  (forall n,
     (String.length (Str.of_nat n) <= 4300)%nat ->
     rank (Str.of_nat n) = Z.of_nat n).
Proof.
  unfold sorted_keys. intros (kx & Hkx%with_keys_ok & [= <-])%bind_ok. subst kx.
  set (l := map (fun key : string => (rank key, key)) keys).
  assert (Forall (fun p => fst p = rank (snd p)) (sort_by_key l)) as Hrank.
  { rewrite sort_by_key_perm. subst l. apply Forall_forall.
    intros p (x & -> & _)%list_elem_of_fmap. done. }
  split; [|split; [|split; [|split]]].
  - rewrite sort_by_key_perm. subst l. rewrite map_map. cbn. by rewrite map_id.
  - pose proof (sort_by_key_sorted l) as Hs. revert Hrank.
    induction Hs as [|p l' Hl' IH Hp]; intros Hrank; cbn [map]; constructor.
    + apply IH. by inversion Hrank.
    + inversion_clear Hrank as [|?? Hp' Hl'']. apply Forall_forall.
      intros k (q & -> & Hq)%list_elem_of_fmap.
      rewrite Forall_forall in Hp, Hl''. rewrite <- Hp', <- (Hl'' q Hq).
      by apply Hp.
  - intros z. rewrite (filter_rank_snd z _ Hrank), sort_by_key_filter.
    subst l. by rewrite <- filter_map_rank.
  - intros k Hk. unfold rank, sort_key. by rewrite Hk.
  - intros n _. unfold rank. by rewrite sort_key_of_nat.
Qed.

Lemma sorted_keys_stable_witness :
  ["2"; "10"; "b"; "a"] ≡ₚ ["b"; "10"; "a"; "2"] /\
  filter (fun k => rank k = 999) ["2"; "10"; "b"; "a"]
  = filter (fun k => rank k = 999) ["b"; "10"; "a"; "2"] /\
  rank (Str.of_nat 10) = 10.
Proof.
  destruct (sorted_keys_stable ["b"; "10"; "a"; "2"] ["2"; "10"; "b"; "a"] eq_refl)
    as (Hp & _ & Hf & _ & Hn).
  split; [exact Hp|]. split; [exact (Hf 999)|].
  apply (Hn 10%nat). simpl. lia.
Defined.



(** ** Tables that the PDF extractor reads without raising *)

Section PdfTables.

Lemma fold_resolve_step_below n headers : forall start cols,
  (start + length headers <= n)%nat ->
  columns_below n cols ->
  columns_below n (fold_left resolve_step (enumerate start headers) cols).
Proof.
  induction headers as [|h headers IH]; intros start cols Hn Hcols; [done|].
  cbn [enumerate fold_left]. cbn [length] in Hn. apply IH; [lia|].
  destruct Hcols as (H1 & H2 & H3 & H4). unfold resolve_step.
  repeat match goal with
         | |- context [if ?b then _ else _] => destruct b
         end;
    (split; [|split; [|split]]); cbn; intros i Hi;
    try (injection Hi as <-; lia); eauto.
Qed.

Lemma resolve_columns_below header_row :
  columns_below (length header_row) (resolve_columns header_row).
Proof.
  unfold resolve_columns. apply fold_resolve_step_below.
  - by rewrite length_map.
  - by repeat split.
Qed.

(** A row that reaches the discount column, if there is one, is read. *)
Lemma process_row_ok si pi ai di table_data row :
  (forall d, di = Some d -> (d < length row)%nat) ->
  exists table_data',
    process_row si pi ai di table_data row = Ok table_data' /\
    (length table_data' <= S (length table_data))%nat.
Proof.
  intros Hdi. unfold process_row.
  destruct (Nat.leb_spec (length row) (Nat.max (Nat.max si pi) ai)).
  { eexists; split; [reflexivity|lia]. }
  destruct (row_get_in row si) as [c1 ->]; [lia|].
  destruct (row_get_in row pi) as [c2 ->]; [lia|].
  destruct (row_get_in row ai) as [c3 ->]; [lia|].
  cbn [Py.bind].
  assert (exists text,
            match di with
            | Some d => let* c := row_get row d in Ok (cell_text c)
            | None => Ok ""
            end = Ok text) as [text ->].
  { destruct di as [d|]; [|eauto].
    destruct (row_get_in row d) as [c ->]; [by apply Hdi|]. cbn. eauto. }
  cbn [Py.bind]. destruct (_ && _).
  { eexists; split; [reflexivity|lia]. }
  destruct (parse_amount_returns (cell_text c3)) as [v ->]. cbn [Py.bind].
  eexists; split; [reflexivity|]. rewrite length_app. simpl. lia.
Qed.

Lemma for_each_row_ok si pi ai di rows : forall table_data,
  Forall (fun row => forall d, di = Some d -> (d < length row)%nat) rows ->
  exists items,
    Py.for_each (fun row td => process_row si pi ai di td row) rows table_data
    = Ok items /\
    (length items <= length table_data + length rows)%nat.
Proof.
  induction rows as [|row rows IH]; intros table_data Hrows.
  - exists table_data. split; [done|]. simpl. lia.
  - apply Forall_cons in Hrows as [Hrow Hrows]. cbn [Py.for_each].
    destruct (process_row_ok si pi ai di table_data row Hrow) as (td & -> & Hlen).
    cbn [Py.bind]. destruct (IH td Hrows) as (items & -> & Hlen').
    exists items. split; [done|]. simpl. lia.
Qed.

Lemma extract_table_ok header rows :
  Forall (fun row =>
            forall d, discount_idx (resolve_columns header) = Some d ->
                      (d < length row)%nat) rows ->
  exists items,
    extract_table (header :: rows) = Ok items /\
    (length items <= length rows)%nat.
Proof.
  intros Hrows. unfold extract_table. destruct rows as [|r rows].
  { exists []. split; [done|]. simpl. lia. }
  destruct (sno_idx (resolve_columns header)) as [si|];
    [|exists []; split; [done|simpl; lia]].
  destruct (product_idx (resolve_columns header)) as [pi|];
    [|exists []; split; [done|simpl; lia]].
  destruct (amount_excl_tax_idx (resolve_columns header)) as [ai|];
    [|exists []; split; [done|simpl; lia]].
  destruct (for_each_row_ok si pi ai (discount_idx (resolve_columns header))
              (r :: rows) [] Hrows) as (items & Hitems & Hlen).
  exists items. split; [exact Hitems|]. simpl in Hlen. simpl. lia.
Qed.

End PdfTables.

(** X10. The extraction of a table returns, with at most one item per
    data row, when the header row has no discount column, and also when
    every data row is at least as long as the header row. *)
Theorem extract_table_returns :
  (forall header rows,
     discount_idx (resolve_columns header) = None ->
     exists items,
       extract_table (header :: rows) = Ok items /\
       (length items <= length rows)%nat) /\
  (forall header rows,
     Forall (fun row => (length header <= length row)%nat) rows ->
     exists items,
       extract_table (header :: rows) = Ok items /\
       (length items <= length rows)%nat).
Proof.
  split.
  - intros header rows Hnone. apply extract_table_ok.
    apply Forall_forall. intros row _ d Hd. congruence.
  - intros header rows Hrows. apply extract_table_ok.
    eapply Forall_impl; [exact Hrows|]. intros row Hlen d Hd. simpl in Hlen.
    destruct (resolve_columns_below header) as (_ & _ & _ & H4).
    specialize (H4 d Hd). lia.
Qed.

Lemma extract_table_returns_witness :
  (exists items,
     extract_table
       [ [Some "S.No"; Some "Product"; Some "Amount excl. tax"];
         [Some "1"; Some "Widget"];
         [Some "2"; Some "Gadget"; Some "5.00"] ] = Ok items /\
     (length items <= 2)%nat) /\
  (exists items,
     extract_table
       [ [Some "S.No"; Some "Product"; Some "Amount excl. tax"; Some "Discount"];
         [Some "1"; Some "Widget"; Some "100"; None; Some "note"] ] = Ok items /\
     (length items <= 1)%nat).
Proof.
  split.
  - apply (proj1 extract_table_returns
             [Some "S.No"; Some "Product"; Some "Amount excl. tax"]
             [ [Some "1"; Some "Widget"];
               [Some "2"; Some "Gadget"; Some "5.00"] ]).
    reflexivity.
  - apply (proj2 extract_table_returns
             [Some "S.No"; Some "Product"; Some "Amount excl. tax"; Some "Discount"]
             [ [Some "1"; Some "Widget"; Some "100"; None; Some "note"] ]).
    repeat constructor.
Defined.

(** ** What the JSON extractors raise *)

Section JsonErrors.

Lemma bind_raises {A B} (m : result A) (k : A -> result B) e :
  (let* x := m in k x) = Raise e ->
  m = Raise e \/ exists a, m = Ok a /\ k a = Raise e.
Proof. destruct m; simpl; [eauto|intros [= <-]; auto]. Qed.

Lemma get_raises k default x e :
  Json.get k default x = Raise e -> e = AttributeError.
Proof. destruct x; simpl; congruence. Qed.

Lemma gt_zero_raises x e : Json.gt_zero x = Raise e -> e = TypeError.
Proof. destruct x; simpl; congruence. Qed.

Lemma iter_raises x e : Json.iter x = Raise e -> e = TypeError.
Proof. destruct x; simpl; congruence. Qed.

Lemma contains_raises k x e : Json.contains k x = Raise e -> e = TypeError.
Proof. destruct x; simpl; congruence. Qed.

Lemma div100_raises x e : Json.div100 x = Raise e -> json_error e.
Proof.
  unfold json_error. destruct x; simpl; try (intros [= <-]; auto); try done.
  unfold PyFloat.of_int. destruct (is_infinity _); simpl; [|done].
  intros [= <-]. auto.
Qed.

Lemma base_product_of_raises description e :
  base_product_of description = Raise e -> e = TypeError.
Proof. destruct description; simpl; congruence. Qed.

Lemma margin_shows_discount_raises margin e :
  margin_shows_discount margin = Raise e -> json_error e.
Proof.
  unfold margin_shows_discount, json_error.
  intros [H|(p & _ & [H|(b & _ & H)]%bind_raises)]%bind_raises.
  - apply get_raises in H. auto.
  - apply gt_zero_raises in H. auto.
  - destruct b; [done|].
    apply bind_raises in H as [H|(a & _ & H)]; [|done].
    apply get_raises in H. auto.
Qed.

Lemma any_margin_raises margins e :
  any_margin margins = Raise e -> json_error e.
Proof.
  induction margins as [|m ms IH]; cbn [any_margin]; [done|].
  intros [H|(b & _ & H)]%bind_raises.
  - by eapply margin_shows_discount_raises.
  - destruct b; [done|auto].
Qed.

Lemma has_discount_of_raises margins e :
  has_discount_of margins = Raise e -> json_error e.
Proof.
  unfold has_discount_of.
  intros [H|(ms & _ & [H|(b & _ & H)]%bind_raises)]%bind_raises.
  - apply iter_raises in H. unfold json_error. auto.
  - by eapply any_margin_raises.
  - done.
Qed.

Lemma line_key_raises line e : line_key line = Raise e -> json_error e.
Proof.
  unfold line_key, json_error. intros [H|(d & _ & H)]%bind_raises.
  - apply get_raises in H. auto.
  - apply base_product_of_raises in H. auto.
Qed.

Lemma line_flag_raises line e : line_flag line = Raise e -> json_error e.
Proof.
  unfold line_flag. intros [H|(d & _ & H)]%bind_raises.
  - apply get_raises in H. unfold json_error. auto.
  - by eapply has_discount_of_raises.
Qed.

Lemma app_contribution_raises line e :
  app_contribution line = Raise e -> json_error e.
Proof.
  unfold app_contribution, app_line_amount, app_dropped, App.amount_of.
  intros [H|(a & _ & [H|(b & _ & H)]%bind_raises)]%bind_raises.
  - apply bind_raises in H as [H|(t & _ & [H|(s & _ & H)]%bind_raises)].
    + apply get_raises in H. unfold json_error. auto.
    + apply get_raises in H. unfold json_error. auto.
    + destruct (Json.ne_zero t); [by eapply div100_raises|].
      destruct (Json.ne_zero s); [by eapply div100_raises|done].
  - destruct (PrimFloat.eqb a zero); [|done].
    apply bind_raises in H as [H|(c & _ & H)]; [|done].
    apply get_raises in H. unfold json_error. auto.
  - destruct b; [done|].
    apply bind_raises in H as [H|(db & _ & [H|(f & _ & H)]%bind_raises)].
    + by eapply line_key_raises.
    + by eapply line_flag_raises.
    + done.
Qed.

Lemma main_contribution_raises line e :
  main_contribution line = Raise e -> json_error e.
Proof.
  unfold main_contribution, main_line_amount, Main.amount_of.
  intros [H|(a & _ & [H|(db & _ & [H|(f & _ & H)]%bind_raises)]%bind_raises)]%bind_raises.
  - apply bind_raises in H as [H|(t & _ & H)].
    + apply get_raises in H. unfold json_error. auto.
    + destruct (Json.ne_zero t); [by eapply div100_raises|done].
  - by eapply line_key_raises.
  - by eapply line_flag_raises.
  - done.
Qed.

Lemma for_each_raises {A S} (P : exn -> Prop) (body : A -> S -> result S) xs :
  (forall x s e, body x s = Raise e -> P e) ->
  forall s e, Py.for_each body xs s = Raise e -> P e.
Proof.
  intros Hbody. induction xs as [|x xs IH]; intros s e; cbn [Py.for_each]; [done|].
  intros [H|(s' & _ & H)]%bind_raises; eauto.
Qed.

Lemma app_process_line_raises line pgs e :
  App.process_line line pgs = Raise e -> json_error e.
Proof.
  rewrite app_process_line_contribution.
  intros [H|(c & _ & H)]%bind_raises; [by eapply app_contribution_raises|done].
Qed.

Lemma main_process_line_raises line pgs e :
  Main.process_line line pgs = Raise e -> json_error e.
Proof.
  rewrite main_process_line_contribution.
  intros [H|(c & _ & H)]%bind_raises; [by eapply main_contribution_raises|done].
Qed.

Lemma inspect_value_raises value e :
  App.inspect_value value = Raise e -> e = TypeError.
Proof.
  destruct value as [| | | | | |d]; try done. cbn [App.inspect_value].
  rewrite dict_mem_get. cbn [Json.getitem].
  destruct (Dict.get "upcomingBills" d) as [bills|]; [|done]. cbn [Py.bind].
  intros [H|(b & _ & H)]%bind_raises; [by eapply contains_raises|done].
Qed.

Lemma inspect_structure_raises data e :
  App.inspect_structure data = Raise e -> e = TypeError.
Proof.
  destruct data as [| | | | | |d]; try done. cbn [App.inspect_structure].
  apply (for_each_raises (fun e => e = TypeError)).
  intros kv [] e'. apply inspect_value_raises.
Qed.

Lemma app_extract_raises data e :
  App.extract_from_data data = Raise e -> json_error e.
Proof.
  unfold App.extract_from_data.
  destruct (App.find_lines App.possible_paths data) as [|l ls].
  - intros [H|(u & _ & H)]%bind_raises; [|done].
    apply inspect_structure_raises in H. unfold json_error. auto.
  - intros [H|(pgs & _ & H)]%bind_raises; [|by destruct pgs].
    revert H. apply for_each_raises. intros x s e'. apply app_process_line_raises.
Qed.

Lemma main_find_lines_raises data e :
  Main.find_lines data = Raise e -> e = TypeError.
Proof.
  unfold Main.find_lines.
  destruct data as [| | | | s|l|d]; try (cbn; congruence).
  - cbn [Json.contains Py.bind]. destruct (Str.contains "upcomingBills" s); cbn.
    + congruence.
    + destruct (Str.contains "lines" s); cbn; congruence.
  - cbn [Json.contains Py.bind].
    destruct (existsb (Json.is_str "upcomingBills") l); cbn.
    + congruence.
    + destruct (existsb (Json.is_str "lines") l); cbn; congruence.
  - cbn [Json.contains Json.getitem Py.bind]. rewrite !dict_mem_get.
    destruct (Dict.get "upcomingBills" d) as [bills|]; cbn [Py.bind].
    + destruct (Json.contains "lines" bills) as [[]|e'] eqn:Hc; cbn [Py.bind].
      * destruct bills; cbn in Hc |- *; try congruence.
        rewrite dict_mem_get in Hc.
        match goal with
        | |- context [Dict.get "lines" ?b] => destruct (Dict.get "lines" b)
        end; congruence.
      * destruct (Dict.get "lines" d); cbn; congruence.
      * intros [= <-]. by eapply contains_raises.
    + destruct (Dict.get "lines" d); cbn; congruence.
Qed.

Lemma main_extract_raises data e :
  Main.extract_from_data data = Raise e -> json_error e.
Proof.
  unfold Main.extract_from_data.
  intros [H|(lines & _ & H)]%bind_raises.
  - apply main_find_lines_raises in H. unfold json_error. auto.
  - destruct (negb (Json.truthy lines)); [done|].
    apply bind_raises in H as [H|(ls & _ & [H|(pgs & _ & H)]%bind_raises)].
    + apply iter_raises in H. unfold json_error. auto.
    + revert H. apply for_each_raises. intros x s e'.
      apply main_process_line_raises.
    + done.
Qed.

End JsonErrors.

(** X11. On parsed JSON of any shape, both extractors either return or
    raise [AttributeError], [TypeError] or [OverflowError]: no key or
    index is ever missing ([KeyError], [IndexError]) and no value is ever
    rejected ([ValueError]). *)
Theorem json_extractors_raise_only :
  (forall data e, App.extract_from_data data = Raise e -> json_error e) /\
  (forall data e, Main.extract_from_data data = Raise e -> json_error e).
Proof. split; [exact app_extract_raises|exact main_extract_raises]. Qed.

Lemma json_extractors_raise_only_witness :
  json_error AttributeError /\ json_error TypeError.
Proof.
  split.
  - apply (proj1 json_extractors_raise_only (JDict [("lines", JList [JStr "x"])])).
    reflexivity.
  - apply (proj2 json_extractors_raise_only (JInt 5)). reflexivity.
Defined.

(** X12. In [app.py], parsed JSON that is no object at the top (a list
    of lines, a text, a number) gives an empty result: no path can be
    followed into it. *)
Theorem app_top_level_must_be_object data :
  Json.is_dict data = false -> App.extract_from_data data = Ok [].
Proof.
  intros Hd. unfold App.extract_from_data.
  assert (App.find_lines App.possible_paths data = []) as ->.
  { apply find_lines_none. intros path Hin [l [ls Hhit]].
    repeat (apply elem_of_cons in Hin as [->|Hin];
            [by destruct data|]).
    by apply elem_of_nil in Hin. }
  by destruct data.
Qed.

Lemma app_top_level_must_be_object_witness :
  App.extract_from_data
    (JList [JDict [("description", JStr "Jira"); ("total", JInt 100)]])
  = Ok [].
Proof. apply app_top_level_must_be_object. reflexivity. Defined.

(** ** The base product name *)

Section BaseProduct.

Lemma append_nil_l (s : string) : "" ++ s = s.
Proof. reflexivity. Qed.

Lemma lstrip_blank s t : blank s = true -> Str.lstrip (s ++ t) = Str.lstrip t.
Proof.
  induction s as [|c s IH]; [done|].
  unfold blank. cbn [all_chars]. intros [Hc Hs]%andb_true_iff.
  rewrite append_cons. cbn [Str.lstrip]. rewrite Hc. by apply IH.
Qed.

Lemma lstrip_blank_nil s : blank s = true -> Str.lstrip s = "".
Proof.
  induction s as [|c s IH]; [done|].
  unfold blank. cbn [all_chars Str.lstrip]. intros [-> Hs]%andb_true_iff.
  by apply IH.
Qed.

Lemma rstrip_blank s : blank s = true -> Str.rstrip s = "".
Proof.
  induction s as [|c s IH]; [done|].
  unfold blank. cbn [all_chars Str.rstrip]. intros [Hc Hs]%andb_true_iff.
  by rewrite (IH Hs), Hc.
Qed.

Lemma rstrip_nil_blank s : Str.rstrip s = "" -> blank s = true.
Proof.
  induction s as [|c s IH]; [done|]. cbn [Str.rstrip].
  destruct (Str.rstrip s) eqn:E; [|done].
  destruct (Str.is_space c) eqn:Hc; [|done].
  intros _. unfold blank. cbn [all_chars]. rewrite Hc. by apply IH.
Qed.

Lemma clause_body_closed body tail :
  without ")" body = true -> blank tail = true ->
  clause_body (body ++ ")" ++ tail) = true.
Proof.
  intros Hb Ht. induction body as [|c body IH].
  - rewrite append_nil_l. change (")" ++ tail) with (String ")" tail).
    cbn [clause_body]. rewrite Ascii.eqb_refl.
    by rewrite (lstrip_blank_nil _ Ht).
  - unfold without in Hb. cbn [all_chars] in Hb.
    apply andb_true_iff in Hb as [Hc Hb]. apply negb_true_iff in Hc.
    rewrite append_cons. cbn [clause_body]. rewrite Hc. by apply IH.
Qed.

(** A head that is no opening parenthesis starts no clause. *)
Lemma not_clause_head c r :
  c <> "("%char ->
  match String c r with
  | String "(" s' => clause_body s'
  | _ => false
  end = false.
Proof.
  intros Hc.
  destruct c as [[] [] [] [] [] [] [] []]; try reflexivity. by destruct Hc.
Qed.

Lemma is_trailing_clause_blank w body tail :
  blank w = true -> without ")" body = true -> blank tail = true ->
  is_trailing_clause (w ++ "(" ++ body ++ ")" ++ tail) = true.
Proof.
  intros Hw Hb Ht. unfold is_trailing_clause.
  rewrite (lstrip_blank _ _ Hw).
  change ("(" ++ body ++ ")" ++ tail) with (String "(" (body ++ ")" ++ tail)).
  cbn [Str.lstrip]. by apply clause_body_closed.
Qed.

Lemma is_trailing_clause_text s t :
  without "(" s = true -> blank s = false ->
  is_trailing_clause (s ++ t) = false.
Proof.
  induction s as [|c s IH]; [done|].
  unfold without, blank. cbn [all_chars].
  intros [Hc Hs]%andb_true_iff Hblank. rewrite append_cons.
  unfold is_trailing_clause. cbn [Str.lstrip].
  destruct (Str.is_space c) eqn:Hsp.
  - cbn [andb] in Hblank. by apply IH.
  - apply not_clause_head. intros ->. done.
Qed.

(** The cut falls where the trailing whitespace of the name begins. *)
Lemma cut_trailing_clause_name name body tail :
  without "(" name = true -> without ")" body = true -> blank tail = true ->
  cut_trailing_clause (name ++ "(" ++ body ++ ")" ++ tail) = Str.rstrip name.
Proof.
  intros Hn Hb Ht. induction name as [|c name IH].
  - rewrite append_nil_l.
    change ("(" ++ body ++ ")" ++ tail) with (String "(" (body ++ ")" ++ tail)).
    cbn [cut_trailing_clause].
    change (String "(" (body ++ ")" ++ tail)) with ("" ++ "(" ++ body ++ ")" ++ tail).
    by rewrite is_trailing_clause_blank.
  - pose proof Hn as Hn'. unfold without in Hn'. cbn [all_chars] in Hn'.
    apply andb_true_iff in Hn' as [Hc Hname].
    rewrite append_cons. cbn [cut_trailing_clause].
    rewrite <- append_cons. destruct (blank (String c name)) eqn:Hblank.
    + rewrite is_trailing_clause_blank by done. by rewrite rstrip_blank.
    + rewrite is_trailing_clause_text by done. rewrite (IH Hname).
      cbn [Str.rstrip]. destruct (Str.rstrip name) eqn:E; [|done].
      apply rstrip_nil_blank in E. unfold blank in Hblank, E.
      cbn [all_chars] in Hblank. rewrite E, andb_true_r in Hblank.
      by rewrite Hblank.
Qed.

Lemma cut_trailing_clause_none s :
  without "(" s = true -> cut_trailing_clause s = s.
Proof.
  induction s as [|c s IH]; [done|]. intros Hs.
  pose proof Hs as Hs'. unfold without in Hs'. cbn [all_chars] in Hs'.
  apply andb_true_iff in Hs' as [Hc Hrest]. cbn [cut_trailing_clause].
  assert (is_trailing_clause (String c s) = false) as ->.
  { unfold is_trailing_clause.
    assert (without "(" (Str.lstrip (String c s)) = true) as Hl.
    { clear IH Hc Hrest. revert Hs. generalize (String c s). clear. intros s.
      induction s as [|a s IH]; [done|]. cbn [Str.lstrip].
      destruct (Str.is_space a); [|done].
      unfold without. cbn [all_chars]. intros [_ H]%andb_true_iff. by apply IH. }
    destruct (Str.lstrip (String c s)) as [|a r]; [done|].
    apply not_clause_head. intros ->. done. }
  by rewrite (IH Hrest).
Qed.

Lemma lstrip_rstrip s : Str.lstrip (Str.rstrip s) = Str.rstrip (Str.lstrip s).
Proof.
  induction s as [|c s IH]; [done|]. cbn [Str.lstrip Str.rstrip].
  destruct (Str.is_space c) eqn:Hc.
  - rewrite <- IH. destruct (Str.rstrip s) eqn:E; [done|].
    cbn [Str.lstrip]. by rewrite Hc.
  - cbn [Str.rstrip]. destruct (Str.rstrip s); cbn [Str.lstrip]; by rewrite Hc.
Qed.

Lemma rstrip_rstrip s : Str.rstrip (Str.rstrip s) = Str.rstrip s.
Proof.
  induction s as [|c s IH]; [done|]. cbn [Str.rstrip].
  destruct (Str.rstrip s) as [|a r] eqn:E.
  - destruct (Str.is_space c) eqn:Hc; [done|]. cbn [Str.rstrip]. by rewrite Hc.
  - cbn [Str.rstrip] in *. by rewrite IH.
Qed.

Lemma strip_rstrip s : Str.strip (Str.rstrip s) = Str.strip s.
Proof. unfold Str.strip. by rewrite lstrip_rstrip, rstrip_rstrip. Qed.

End BaseProduct.

(** X13. The key of a description that ends in one parenthesized clause
    (no opening parenthesis before it, no closing parenthesis inside it,
    whitespace at most after it) is the text before the clause, stripped;
    so descriptions that differ in this clause only share their product
    group. The key of a description without an opening parenthesis is
    the description, stripped. *)
Theorem base_product_drops_trailing_clause :
  (forall name body tail,
     without "(" name = true -> without ")" body = true -> blank tail = true ->
     Str.truthy (Str.strip name) = true ->
     base_product_of (JStr (name ++ "(" ++ body ++ ")" ++ tail))
     = Ok (name ++ "(" ++ body ++ ")" ++ tail, Str.strip name)) /\
  (forall description,
     without "(" description = true ->
     Str.truthy (Str.strip description) = true ->
     base_product_of (JStr description) = Ok (description, Str.strip description)).
Proof.
  split.
  - intros name body tail Hn Hb Ht Hs. unfold base_product_of.
    rewrite (cut_trailing_clause_name _ _ _ Hn Hb Ht), strip_rstrip.
    by rewrite Hs.
  - intros d Hd Hs. unfold base_product_of.
    rewrite (cut_trailing_clause_none _ Hd). by rewrite Hs.
Qed.

Lemma base_product_drops_trailing_clause_witness :
  base_product_of (JStr "Jira Software  (Annual, 500 users) ")
  = Ok ("Jira Software  (Annual, 500 users) ", "Jira Software") /\
  base_product_of (JStr " Confluence ") = Ok (" Confluence ", "Confluence").
Proof.
  split.
  - apply (proj1 base_product_drops_trailing_clause
             "Jira Software  " "Annual, 500 users" " "); reflexivity.
  - apply (proj2 base_product_drops_trailing_clause " Confluence "); reflexivity.
Defined.

(** ** Whole documents in [app.py] *)

Section WholeDocuments.



Lemma extract_tables_loop tables : forall all_tables all_tables',
  Forall (fun t : list item => t <> []) all_tables ->
  Py.for_each
    (fun table all_tables =>
       let* table_data := extract_table table in
       Ok (match table_data with
           | [] => all_tables
           | _ => (all_tables ++ [table_data])%list
           end))
    tables all_tables = Ok all_tables' ->
  Forall (fun t : list item => t <> []) all_tables' /\
  (length all_tables' <= length all_tables + length tables)%nat.
Proof.
  induction tables as [|t tables IH]; intros all_tables all_tables' Hall;
    cbn [Py.for_each].
  - intros [= <-]. split; [done|]. lia.
  - intros (acc & (td & _ & [= <-])%bind_ok & Hrest)%bind_ok.
    apply IH in Hrest as [H1 H2].
    + split; [done|]. destruct td; rewrite ?length_app in H2; simpl in *; lia.
    + destruct td; [done|]. apply Forall_app. split; [done|]. by repeat constructor.
Qed.

End WholeDocuments.



(** X15. In [app.py], when a document is taken for a PDF and reading it
    or extracting its tables raises (a file that is no PDF, a row short
    of the discount column), the exception is swallowed with all the
    tables, and the outcome is the error "No tables found in PDF". *)
Theorem pdf_failure_reported_as_no_tables :
  forall path_suffix decode_utf8 json_loads pdf_tables str_exn
         file_content filename e,
    App.detect_input_type_from_content path_suffix decode_utf8
      file_content filename = "pdf" ->
    (let* pages := pdf_tables file_content in extract_tables pages) = Raise e ->
    App.extract_tables_from_pdf_content pdf_tables file_content = [] /\
    App.process_single_file path_suffix decode_utf8 json_loads pdf_tables
      str_exn file_content filename
    = Ok (None, "error", "No tables found in PDF").
Proof.
  intros * Hd He.
  assert (App.extract_tables_from_pdf_content pdf_tables file_content = []) as H.
  { unfold App.extract_tables_from_pdf_content. by rewrite He. }
  split; [done|]. unfold App.process_single_file, App.process_body.
  rewrite Hd. cbn [String.eqb Ascii.eqb Bool.eqb]. by rewrite H.
Qed.

Lemma pdf_failure_reported_as_no_tables_witness :
  App.process_single_file Example.path_suffix Example.decode_utf8
    Example.json_loads
    (fun _ => Ok [[Example.good_table;
                   [ [Some "S.No"; Some "Product"; Some "Amount excl. tax"; Some "Discount"];
                     [Some "2"; Some "Gadget"; Some "5.00"] ]]])
    Example.str_exn "%PDF" "quote.pdf"
  = Ok (None, "error", "No tables found in PDF").
Proof.
  apply (pdf_failure_reported_as_no_tables Example.path_suffix Example.decode_utf8
           Example.json_loads
           (fun _ => Ok [[Example.good_table;
                          [ [Some "S.No"; Some "Product"; Some "Amount excl. tax";
                             Some "Discount"];
                            [Some "2"; Some "Gadget"; Some "5.00"] ]]])
           Example.str_exn "%PDF" "quote.pdf" IndexError);
    vm_compute; reflexivity.
Defined.

(** X16. The formatter makes a text longer by one character for each
    occurrence of a label, and leaves a text without the labels as it
    is. *)
Theorem format_product_text_length :
  (forall s,
     String.length (format_product_text s)
     = (String.length s + Spec.occurrences s)%nat) /\
  (forall s,
     Str.contains entitlement_label s = false ->
     Str.contains billing_label s = false ->
     format_product_text s = s).
Proof.
  split.
  - intros s. rewrite format_is_insert_breaks. apply length_insert_breaks.
  - intros s. rewrite format_is_insert_breaks.
    induction s as [|c s IH]; [done|].
    cbn [Str.contains Spec.insert_breaks]. unfold Spec.label_here.
    intros [-> H1]%orb_false_iff [-> H2]%orb_false_iff.
    cbn [orb]. by rewrite IH.
Qed.

Lemma format_product_text_length_witness :
  format_product_text "Jira Software (Annual)" = "Jira Software (Annual)".
Proof. apply (proj2 format_product_text_length); reflexivity. Defined.

(** X17. When the PDF extractor returns, none of the tables it returns
    is empty, and there are at most as many as the document has: a table
    that gives no item is left out. *)
Theorem extract_tables_no_empty_table pages all_tables :
  extract_tables pages = Ok all_tables ->
  Forall (fun t => t <> []) all_tables /\
  (length all_tables <= length (concat pages))%nat.
Proof.
  unfold extract_tables. intros H.
  by apply (extract_tables_loop (concat pages) [] all_tables) in H.
Qed.

Lemma extract_tables_no_empty_table_witness :
  Forall (fun t : list item => t <> []) [[Item "1" "Widget" 100 "Y"]] /\
  (length [[Item "1" "Widget" 100 "Y"]]
   <= length (concat [[Example.good_table; [[Some "Notes"]; [Some "none"]]]; []]))%nat.
Proof.
  apply (extract_tables_no_empty_table
           [[Example.good_table; [[Some "Notes"]; [Some "none"]]]; []]).
  vm_compute; reflexivity.
Defined.

